(** * Instance resolution of the OpenStack cloud provider (pkg/openstack/instancesv2.go)

    A shallow embedding of the InstancesV2 implementation: the label
    sanitizer, the provider-identity codec, the instance locator and the
    queries built on it.  Go strings are byte sequences and are modelled as
    [string] (one [ascii] per byte); a Go result pair [(v, err)] is a Rocq
    pair whose second component is an [option error] ([None] is [nil]);
    a pointer that may be nil is an [option]. *)

From Stdlib Require Import Strings.String Strings.Ascii Lists.List Bool.Bool.
From Stdlib Require Import Arith.PeanoNat micromega.Lia.
Import ListNotations.
Open Scope string_scope.

(** ** Bytes and the standard-library string functions the file calls *)

Definition is_upper (c : ascii) : bool :=
  let n := nat_of_ascii c in Nat.leb 65 n && Nat.leb n 90.

Definition is_lower (c : ascii) : bool :=
  let n := nat_of_ascii c in Nat.leb 97 n && Nat.leb n 122.

Definition is_digit (c : ascii) : bool :=
  let n := nat_of_ascii c in Nat.leb 48 n && Nat.leb n 57.

Definition is_alnum (c : ascii) : bool := is_lower c || is_upper c || is_digit c.

(** Membership of a byte in a string read as a set of bytes. *)
Fixpoint byte_in (set : string) (c : ascii) : bool :=
  match set with
  | EmptyString => false
  | String d set' => Ascii.eqb c d || byte_in set' c
  end.

(** Every byte of [s] satisfies [p]. *)
Fixpoint all_bytes (p : ascii -> bool) (s : string) : bool :=
  match s with
  | EmptyString => true
  | String c s' => p c && all_bytes p s'
  end.

(** Some byte of [s] satisfies [p]. *)
Fixpoint some_byte (p : ascii -> bool) (s : string) : bool :=
  match s with
  | EmptyString => false
  | String c s' => p c || some_byte p s'
  end.

Definition first_byte (s : string) : option ascii :=
  match s with
  | EmptyString => None
  | String c _ => Some c
  end.

Fixpoint last_byte (s : string) : option ascii :=
  match s with
  | EmptyString => None
  | String c EmptyString => Some c
  | String _ s' => last_byte s'
  end.

Module strings.

(** strings.TrimLeft(s, cutset) for a cutset of ASCII bytes. *)
Fixpoint TrimLeft (s cutset : string) : string :=
  match s with
  | EmptyString => EmptyString
  | String c s' => if byte_in cutset c then TrimLeft s' cutset else s
  end.

(** strings.TrimRight(s, cutset) for a cutset of ASCII bytes. *)
Fixpoint TrimRight (s cutset : string) : string :=
  match s with
  | EmptyString => EmptyString
  | String c s' =>
      match TrimRight s' cutset with
      | EmptyString => if byte_in cutset c then EmptyString else String c EmptyString
      | t => String c t
      end
  end.

(** strings.Trim(s, cutset): all leading and trailing bytes contained in
    the cutset removed.  The cutsets of this file are ASCII, for which Go
    trims byte by byte. *)
Definition Trim (s cutset : string) : string :=
  TrimRight (TrimLeft s cutset) cutset.

Definition lower_byte (c : ascii) : ascii :=
  if is_upper c then ascii_of_nat (nat_of_ascii c + 32) else c.

(** strings.ToLower on a string of ASCII bytes (the only strings the
    sanitizer hands to it): 'A'..'Z' are mapped to 'a'..'z'. *)
Fixpoint ToLower (s : string) : string :=
  match s with
  | EmptyString => EmptyString
  | String c s' => String (lower_byte c) (ToLower s')
  end.

(** strings.Repeat(s, count). *)
Fixpoint Repeat (s : string) (count : nat) : string :=
  match count with
  | O => EmptyString
  | S n => s ++ Repeat s n
  end.

(** strings.Contains(s, sep) for a one-byte separator. *)
Definition ContainsByte (s : string) (c : ascii) : bool :=
  some_byte (Ascii.eqb c) s.

(** strings.CutPrefix(s, prefix): [s] without the leading [prefix], or
    [None] when [s] does not start with it. *)
Fixpoint CutPrefix (s prefix : string) {struct prefix} : option string :=
  match prefix with
  | EmptyString => Some s
  | String p prefix' =>
      match s with
      | EmptyString => None
      | String c s' => if Ascii.eqb c p then CutPrefix s' prefix' else None
      end
  end.

(** strings.Cut(s, sep) for a one-byte separator: the text before and
    after the first [sep], or [None] when [sep] does not occur. *)
Fixpoint CutByte (s : string) (sep : ascii) : option (string * string) :=
  match s with
  | EmptyString => None
  | String c s' =>
      if Ascii.eqb c sep then Some (EmptyString, s')
      else match CutByte s' sep with
           | Some (before, after) => Some (String c before, after)
           | None => None
           end
  end.

End strings.

Module fmt.

(** fmt.Sprintf restricted to the verb the file formats strings with:
    each %s is replaced by the next operand, every other byte is copied. *)
Fixpoint Sprintf (format : string) (args : list string) : string :=
  match format with
  | EmptyString => EmptyString
  | String "%"%char (String "s"%char rest) =>
      match args with
      | a :: args' => a ++ Sprintf rest args'
      | [] => "%!s(MISSING)" ++ Sprintf rest []
      end
  | String c rest => String c (Sprintf rest args)
  end.

End fmt.

Module regexp.

(** reg.ReplaceAllString(input, repl) for a pattern of the shape [[^...]+]:
    [inClass] is the bracketed set, and every maximal run of bytes outside
    it is replaced by one copy of [repl].  A rune that is not ASCII (or an
    invalid byte) lies outside every ASCII set with all its bytes, so runs
    of runes and runs of bytes coincide.  [inRun] tells that the byte
    before the current one was part of a run already replaced. *)
Fixpoint ReplaceAllRuns (inClass : ascii -> bool) (repl : string)
         (inRun : bool) (input : string) : string :=
  match input with
  | EmptyString => EmptyString
  | String c rest =>
      if inClass c then String c (ReplaceAllRuns inClass repl false rest)
      else if inRun then ReplaceAllRuns inClass repl true rest
      else repl ++ ReplaceAllRuns inClass repl true rest
  end.

End regexp.

(** ** Errors *)

(** servers.ListOpts, as far as the file fills it in. *)
Record ListOpts := { opt_Name : string }.

(** The Go [error] values that travel through the file.  [InstanceNotFound]
    is the sentinel cloudprovider.InstanceNotFound, compared by identity in
    the source; each fmt.Errorf of the file is a constructor of its own that
    keeps the operands of its message; the remaining constructors are errors
    that come back from collaborators. *)
#[local] Set Warnings "-register-all".
Inductive error : Type :=
| InstanceNotFound
| ErrListingServers (opt : ListOpts) (err : option error)
    (* "error listing servers %v: %v" *)
| ErrExtractingServers (err : error)
    (* "error extracting servers from pages: %v" *)
| ErrMultipleInstances
    (* "getInstance: multiple instances found" *)
| ErrRegionMismatch (providerID region : string)
    (* "ProviderID %s didn't match supported region %s" *)
| ErrProviderIDFormat (providerID : string)
    (* the format error of instanceIDFromProviderID *)
| ErrResourceNotFound (msg : string)
    (* the remote answered 404 *)
| ErrRemote (code : nat) (msg : string)
    (* any other failure of a remote call *)
| ErrContextCanceled.
    (* context.Canceled *)

(** [err == cloudprovider.InstanceNotFound]. *)
Definition is_InstanceNotFound (err : option error) : bool :=
  match err with
  | Some InstanceNotFound => true
  | _ => false
  end.

(** ** Label sanitizer *)

(** The set of the pattern [[^-a-zA-Z0-9_.]+]. *)
Definition label_byte (c : ascii) : bool := is_alnum c || byte_in "-_." c.

(** What the sanitizer promises of each byte it returns. *)
Definition lower_label_byte (c : ascii) : bool :=
  is_lower c || is_digit c || byte_in "-_." c.

Definition sanitizeLabel (input : string) : string * option error :=
  (* Replace non-alphanumeric characters (except '-', '_', '.') with '-' *)
  let sanitized := regexp.ReplaceAllRuns label_byte "-" false input in
  (* Ensure the label starts and ends with an alphanumeric character *)
  let sanitized := strings.Trim sanitized "-_." in
  (* Ensure the label is not longer than 63 characters *)
  let sanitized :=
    if Nat.ltb 63 (String.length sanitized) then substring 0 63 sanitized else sanitized in
  (* Convert to lowercase *)
  (strings.ToLower sanitized, None).

(** A zone of 64 bytes whose 63rd byte is a dash. *)
Definition long_zone : string := strings.Repeat "a" 62 ++ "-b".

(** ** Data model *)

(** context.Context, as far as cancellation goes. *)
Inductive Context : Type :=
| TODO                                              (* context.TODO() *)
| Background                                        (* context.Background() *)
| WithCancel (parent : Context) (canceled : bool).  (* a derived context *)

Fixpoint canceled (ctx : Context) : bool :=
  match ctx with
  | TODO | Background => false
  | WithCancel parent c => c || canceled parent
  end.

(** servers.Server: the fields the file reads, and the name the remote
    lists by. *)
Record Server := {
  ID : string;
  Name : string;
  Status : string;
  AvailabilityZone : string
}.

(** The zero value of servers.Server ([var server servers.Server]). *)
Definition zero_Server : Server :=
  {| ID := ""; Name := ""; Status := ""; AvailabilityZone := "" |}.

(** v1.Node: [node.Name] and [node.Spec.ProviderID]. *)
Record Node := {
  node_Name : string;
  node_ProviderID : string
}.

(** pagination.Page as servers.ExtractServers reads it: the servers its body
    decodes to and the decoding error, if any. *)
Record Page := {
  page_servers : list Server;
  page_err : option error
}.

Record Port := { port_ID : string }.

Record NodeAddress := { addr_Type : string; addr_Address : string }.

Record NetworkingOpts := { opts_PublicNetworkName : list string }.

(** The compute service behind a *gophercloud.ServiceClient: what it answers
    to the requests of this file.  The remote state is this answer. *)
Record ComputeClient := {
  compute_list : Context -> ListOpts -> Page * option error;
  compute_get : Context -> string -> option Server * option error;
  compute_instance_type : Server -> string * option error
}.

(** The network service behind a *gophercloud.ServiceClient. *)
Record NetworkClient := {
  network_ports : string -> list Port * option error;
  network_addresses :
    Server -> list Port -> NetworkingOpts -> list NodeAddress * option error
}.

(** InstancesV2 encapsulates an implementation of InstancesV2 for OpenStack. *)
Record InstancesV2 := {
  compute : ComputeClient;
  network : NetworkClient;
  region : string;
  regionProviderID : bool;
  networkingOpts : NetworkingOpts
}.

Module cloudprovider.

Record InstanceMetadata := {
  ProviderID : string;
  InstanceType : string;
  NodeAddresses : list NodeAddress;
  Zone : string;
  Region : string
}.

End cloudprovider.

(** ** Effects: the requests a resolution sends out, and panics *)

(** One outbound request, with the context it was issued under where the
    callee takes one. *)
Inductive Call : Type :=
| CallServersList (ctx : Context) (opt : ListOpts)
| CallServersGet (ctx : Context) (id : string)
| CallInstanceType (id : string)
| CallAttachedPorts (id : string)
| CallNodeAddresses (id : string).

(** The context a request to the compute API was issued under. *)
Definition call_ctx (c : Call) : option Context :=
  match c with
  | CallServersList ctx _ | CallServersGet ctx _ => Some ctx
  | _ => None
  end.

Inductive outcome (A : Type) : Type :=
| Return (a : A)
| Panic.

Arguments Return {A} a.
Arguments Panic {A}.

(** A computation threads the log of the requests issued so far and ends in
    a value or in a run-time panic. *)
Definition M (A : Type) : Type := list Call -> outcome A * list Call.

Definition ret {A} (a : A) : M A := fun log => (Return a, log).

Definition panic {A} : M A := fun log => (Panic, log).

Definition bind {A B} (m : M A) (k : A -> M B) : M B :=
  fun log =>
    match m log with
    | (Return a, log') => k a log'
    | (Panic, log') => (Panic, log')
    end.

(** Issue a request: log it and hand back the remote's answer. *)
Definition request {A} (c : Call) (answer : A) : M A :=
  fun log => (Return answer, (log ++ [c])%list).

Notation "x <- m ;; k" := (bind m (fun x => k))
  (at level 61, m at next level, right associativity).
Notation "' pat <- m ;; k" := (bind m (fun x => match x with pat => k end))
  (at level 61, pat pattern, m at next level, right associativity).

(** The result and the requests of a computation started on an empty log. *)
Definition run {A} (m : M A) : outcome A * list Call := m [].

Module servers.

(** servers.List(client, opt).AllPages(ctx) *)
Definition ListAllPages (client : ComputeClient) (opt : ListOpts) (ctx : Context)
  : M (Page * option error) :=
  request (CallServersList ctx opt) (compute_list client ctx opt).

(** servers.ExtractServers(allPages) *)
Definition ExtractServers (allPages : Page) : list Server * option error :=
  (page_servers allPages, page_err allPages).

(** servers.Get(ctx, client, id).Extract() *)
Definition GetExtract (ctx : Context) (client : ComputeClient) (id : string)
  : M (option Server * option error) :=
  request (CallServersGet ctx id) (compute_get client ctx id).

End servers.

Module metrics.

(** Modelled from the spec: the metrics package (MetricContext and its
    ObserveRequest) is not among the sources.  A resolution has no side
    effect besides its remote queries and errors propagate unchanged
    (sections 5 and 7), so observing a request hands back the error it was
    given. *)
Definition ObserveRequest (err : option error) : option error := err.

End metrics.

Module errors.

(** Modelled from the spec: errors.IsNotFound (pkg/util/errors) is not
    among the sources.  The instance-by-id fetcher fails with a
    distinguishable not-found condition (section 6); it is the remote's
    404 answer. *)
Definition IsNotFound (err : option error) : bool :=
  match err with
  | Some (ErrResourceNotFound _) => true
  | _ => false
  end.

End errors.

(** Modelled from the spec: srvInstanceType is declared elsewhere in the
    package.  It is the instance-type resolver of section 6, answered by the
    compute service. *)
Definition srvInstanceType (client : ComputeClient) (srv : Server)
  : M (string * option error) :=
  request (CallInstanceType (ID srv)) (compute_instance_type client srv).

(** Modelled from the spec: getAttachedPorts is declared elsewhere in the
    package.  It is the port enumerator of section 6, answered by the
    network service. *)
Definition getAttachedPorts (client : NetworkClient) (serverID : string)
  : M (list Port * option error) :=
  request (CallAttachedPorts serverID) (network_ports client serverID).

(** Modelled from the spec: nodeAddresses is declared elsewhere in the
    package.  It is the address deriver of section 6: instance, ports and
    networking configuration to an ordered sequence of addresses. *)
Definition nodeAddresses (srv : Server) (ports : list Port)
           (client : NetworkClient) (opts : NetworkingOpts)
  : M (list NodeAddress * option error) :=
  request (CallNodeAddresses (ID srv)) (network_addresses client srv ports opts).

(** ** Remote states used to run the code *)

(** A compute service holding the instances [all].  It lists the instances
    whose name the anchored pattern spells out, gets an instance by its
    identifier, and refuses a request whose context is canceled. *)
Definition compute_of (all : list Server) : ComputeClient :=
  {| compute_list := fun ctx opt =>
       if canceled ctx
       then ({| page_servers := []; page_err := None |}, Some ErrContextCanceled)
       else ({| page_servers :=
                  filter (fun s => String.eqb (opt_Name opt) ("^" ++ Name s ++ "$")) all;
                page_err := None |}, None);
     compute_get := fun ctx id =>
       if canceled ctx then (None, Some ErrContextCanceled)
       else match find (fun s => String.eqb (ID s) id) all with
            | Some s => (Some s, None)
            | None => (None, Some (ErrResourceNotFound id))
            end;
     compute_instance_type := fun _ => ("m1.small", None) |}.

Definition network_of_none : NetworkClient :=
  {| network_ports := fun _ => ([], None);
     network_addresses := fun _ _ _ => ([], None) |}.

Definition instances_of (all : list Server) (r : string) (qualified : bool)
  : InstancesV2 :=
  {| compute := compute_of all;
     network := network_of_none;
     region := r;
     regionProviderID := qualified;
     networkingOpts := {| opts_PublicNetworkName := [] |} |}.

Definition server_abc : Server :=
  {| ID := "abc"; Name := "node-1"; Status := "ACTIVE"; AvailabilityZone := "AZ_1!!" |}.

Definition server_xyz : Server :=
  {| ID := "xyz"; Name := "node-3"; Status := "SHUTOFF"; AvailabilityZone := "nova" |}.

Definition server_twin1 : Server :=
  {| ID := "t1"; Name := "node-2"; Status := "ACTIVE"; AvailabilityZone := "nova" |}.

Definition server_twin2 : Server :=
  {| ID := "t2"; Name := "node-2"; Status := "ACTIVE"; AvailabilityZone := "nova" |}.

Definition cloud : list Server := [server_abc; server_xyz; server_twin1; server_twin2].

Definition node_1 : Node := {| node_Name := "node-1"; node_ProviderID := "" |}.

Definition node_2 : Node := {| node_Name := "node-2"; node_ProviderID := "" |}.

Definition node_9 : Node := {| node_Name := "node-9"; node_ProviderID := "" |}.

Definition node_local : Node :=
  {| node_Name := "node-3"; node_ProviderID := "openstack://local/xyz" |}.

Definition node_remote : Node :=
  {| node_Name := "node-3"; node_ProviderID := "openstack://remote/xyz" |}.

(** A compute service whose get answers neither an instance nor an error. *)
Definition compute_silent : ComputeClient :=
  {| compute_list := fun _ _ => ({| page_servers := []; page_err := None |}, None);
     compute_get := fun _ _ => (None, None);
     compute_instance_type := fun _ => ("", None) |}.

(** The instances of [all] named [name]. *)
Definition named (name : string) (all : list Server) : list Server :=
  filter (fun s => String.eqb (Name s) name) all.

(** A compute service that is down: every request fails. *)
Definition compute_down : ComputeClient :=
  {| compute_list := fun _ _ =>
       ({| page_servers := []; page_err := None |}, Some (ErrRemote 503 "unavailable"));
     compute_get := fun _ _ => (None, Some (ErrRemote 503 "unavailable"));
     compute_instance_type := fun _ => ("", Some (ErrRemote 503 "unavailable")) |}.

(** The compute service of [all] with a flavor lookup that fails. *)
Definition compute_no_flavor (all : list Server) : ComputeClient :=
  {| compute_list := compute_list (compute_of all);
     compute_get := compute_get (compute_of all);
     compute_instance_type := fun _ => ("", Some (ErrRemote 500 "flavor")) |}.

(** A network service whose port listing fails. *)
Definition network_no_ports : NetworkClient :=
  {| network_ports := fun _ => ([], Some (ErrRemote 500 "ports"));
     network_addresses := fun _ _ _ => ([], None) |}.

(** A network service that lists one port and cannot derive addresses. *)
Definition network_no_addresses : NetworkClient :=
  {| network_ports := fun _ => ([{| port_ID := "p1" |}], None);
     network_addresses := fun _ _ _ => ([], Some (ErrRemote 500 "addresses")) |}.

(** A network service with one port and one internal address. *)
Definition network_one : NetworkClient :=
  {| network_ports := fun _ => ([{| port_ID := "p1" |}], None);
     network_addresses := fun _ _ _ =>
       ([{| addr_Type := "InternalIP"; addr_Address := "10.0.0.5" |}], None) |}.

Definition node_garbage : Node :=
  {| node_Name := "node-3"; node_ProviderID := "aws:///i-0abc" |}.

Definition node_gone : Node :=
  {| node_Name := "node-7"; node_ProviderID := "openstack:///gone" |}.

(** How a compute service that reads the name filter of a list request as
    a regular expression matches the body of a pattern against a server
    name, for the patterns the locator builds from node names of letters,
    digits, dashes and dots: a dot stands for any one byte, the closing
    dollar for the end of the name, every other byte for itself. *)
Fixpoint pattern_body_matches (body name : string) : bool :=
  match body, name with
  | String "$"%char EmptyString, EmptyString => true
  | String p body', String c name' =>
      (Ascii.eqb p "."%char || Ascii.eqb p c) && pattern_body_matches body' name'
  | _, _ => false
  end.

(** The pattern is anchored at the start by its leading caret. *)
Definition pattern_matches (pattern name : string) : bool :=
  match pattern with
  | String "^"%char body => pattern_body_matches body name
  | _ => false
  end.

(** A compute service holding the instances [all] that filters the listing
    by matching the pattern against each name. *)
Definition compute_regex (all : list Server) : ComputeClient :=
  {| compute_list := fun _ opt =>
       ({| page_servers := filter (fun s => pattern_matches (opt_Name opt) (Name s)) all;
           page_err := None |}, None);
     compute_get := compute_get (compute_of all);
     compute_instance_type := compute_instance_type (compute_of all) |}.

(** A node whose name holds a dot, and an instance of that name. *)
Definition node_dot : Node := {| node_Name := "node.1"; node_ProviderID := "" |}.

Definition server_dot : Server :=
  {| ID := "dot"; Name := "node.1"; Status := "ACTIVE"; AvailabilityZone := "nova" |}.

(** A compute service that answers every list request with the one
    instance [s], whatever the name asked for. *)
Definition compute_only (s : Server) : ComputeClient :=
  {| compute_list := fun _ _ => ({| page_servers := [s]; page_err := None |}, None);
     compute_get := fun _ _ => (Some s, None);
     compute_instance_type := fun _ => ("m1.small", None) |}.

(** An implementation over the given services, with no public network
    configured. *)
Definition instances_with (c : ComputeClient) (n : NetworkClient) (r : string)
           (qualified : bool) : InstancesV2 :=
  {| compute := c;
     network := n;
     region := r;
     regionProviderID := qualified;
     networkingOpts := {| opts_PublicNetworkName := [] |} |}.

(** A second record of the instance abc, as a later request may see it. *)
Definition server_abc_stopped : Server :=
  {| ID := "abc"; Name := "node-1"; Status := "SHUTOFF"; AvailabilityZone := "AZ_1!!" |}.

(** ** Construction of the implementation *)

(** *gophercloud.ProviderClient, opaque to this file. *)
Record ProviderClient := { pc_IdentityEndpoint : string }.

(** gophercloud.EndpointOpts: the field the file reads. *)
Record EndpointOpts := { eo_Region : string }.

(** The OpenStack provider object, as far as the file reads it
    ([os.provider], [os.epOpts], [os.networkingOpts], [os.useV1Instances]). *)
Record OpenStack := {
  provider : ProviderClient;
  epOpts : EndpointOpts;
  os_networkingOpts : NetworkingOpts;
  useV1Instances : bool
}.

(** What the constructor takes from outside the file: the two client
    constructors of pkg/client, each answering a client or an error, the
    process environment ([sysos.Getenv], the empty string for a variable that
    is not set) and the name of the environment variable, a constant declared
    elsewhere in the package. *)
Record Runtime := {
  NewComputeV2 : ProviderClient -> EndpointOpts -> ComputeClient + error;
  NewNetworkV2 : ProviderClient -> EndpointOpts -> NetworkClient + error;
  Getenv : string -> string;
  RegionalProviderIDEnv : string
}.

Definition instancesv2 (rt : Runtime) (os : OpenStack) : option InstancesV2 * bool :=
  match NewComputeV2 rt (provider os) (epOpts os) with
  | inr _ => (None, false)    (* unable to access compute v2 API *)
  | inl compute =>
      match NewNetworkV2 rt (provider os) (epOpts os) with
      | inr _ => (None, false)    (* unable to access network v2 API *)
      | inl network =>
          let regionalProviderID :=
            if String.eqb (Getenv rt (RegionalProviderIDEnv rt)) "true"
            then true else false in
          (Some {| compute := compute;
                   network := network;
                   region := eo_Region (epOpts os);
                   regionProviderID := regionalProviderID;
                   networkingOpts := os_networkingOpts os |}, true)
      end
  end.

(** A value of the interface type cloudprovider.InstancesV2 as this file
    makes one: the nil interface, or an interface holding a *InstancesV2,
    where the pointer held may itself be nil. *)
Inductive InstancesV2Interface : Type :=
| NilInterface
| HoldsPointer (p : option InstancesV2).

(** InstancesV2 returns an implementation of InstancesV2 for OpenStack.
    Returning the results of instancesv2() converts its pointer to the
    interface type, nil pointer or not. *)
Definition OpenStack_InstancesV2 (rt : Runtime) (os : OpenStack)
  : InstancesV2Interface * bool :=
  if negb (useV1Instances os) then
    let '(p, ok) := instancesv2 rt os in (HoldsPointer p, ok)
  else (NilInterface, false).

(** A runtime in which the compute service cannot be reached. *)
Definition runtime_no_compute : Runtime :=
  {| NewComputeV2 := fun _ _ => inr (ErrRemote 401 "unauthorized");
     NewNetworkV2 := fun _ _ => inl network_of_none;
     Getenv := fun _ => "";
     RegionalProviderIDEnv := "OS_CCM_REGIONAL" |}.

(** A runtime in which both services can be reached and the environment is
    the association list [env]. *)
Definition runtime_of (all : list Server) (env : list (string * string)) : Runtime :=
  {| NewComputeV2 := fun _ _ => inl (compute_of all);
     NewNetworkV2 := fun _ _ => inl network_one;
     Getenv := fun name =>
       match find (fun kv => String.eqb (fst kv) name) env with
       | Some kv => snd kv
       | None => ""
       end;
     RegionalProviderIDEnv := "OS_CCM_REGIONAL" |}.

Definition openstack_local : OpenStack :=
  {| provider := {| pc_IdentityEndpoint := "https://keystone.example/v3" |};
     epOpts := {| eo_Region := "local" |};
     os_networkingOpts := {| opts_PublicNetworkName := [] |};
     useV1Instances := false |}.

(** ** Codec, locator and queries *)

Section Deployment.

(** The provider name, declared elsewhere in the package: a fixed constant. *)
Variable ProviderName : string.

(** The status of a powered-off instance, declared elsewhere in the package. *)
Variable instanceShutoff : string.

Definition makeInstanceID (i : InstancesV2) (srv : Server) : string :=
  if regionProviderID i then
    fmt.Sprintf "%s://%s/%s" [ProviderName; region i; ID srv]
  else
    fmt.Sprintf "%s:///%s" [ProviderName; ID srv].

(** Modelled from the spec: instanceIDFromProviderID is declared elsewhere
    in the package.  Section 4.2: it accepts both shapes, provider://region/id
    and provider:///id, and fails with a format error on anything else
    (missing scheme, malformed path).  The scheme is cut off, the first
    slash ends the region segment (empty in the second shape), and what
    follows is the instance identifier, which is not empty and holds no
    further slash. *)
Definition instanceIDFromProviderID (providerID : string)
  : string * string * option error :=
  match strings.CutPrefix providerID (ProviderName ++ "://") with
  | None => ("", "", Some (ErrProviderIDFormat providerID))
  | Some path =>
      match strings.CutByte path "/" with
      | None => ("", "", Some (ErrProviderIDFormat providerID))
      | Some (instanceRegion, instanceID) =>
          if String.eqb instanceID "" || strings.ContainsByte instanceID "/"
          then ("", "", Some (ErrProviderIDFormat providerID))
          else (instanceID, instanceRegion, None)
      end
  end.

Definition getInstance (i : InstancesV2) (ctx : Context) (node : Node)
  : M (option Server * option error) :=
  if String.eqb (node_ProviderID node) "" then
    let opt := {| opt_Name := fmt.Sprintf "^%s$" [node_Name node] |} in
    '(allPages, err) <- servers.ListAllPages (compute i) opt TODO ;;
    match metrics.ObserveRequest err with
    | Some _ => ret (None, Some (ErrListingServers opt err))
    | None =>
        let '(serverList, err) := servers.ExtractServers allPages in
        match err with
        | Some e => ret (None, Some (ErrExtractingServers e))
        | None =>
            if Nat.eqb (List.length serverList) 0 then
              ret (None, Some InstanceNotFound)
            else if Nat.ltb 1 (List.length serverList) then
              ret (None, Some ErrMultipleInstances)
            else
              match nth_error serverList 0 with
              | Some s => ret (Some s, None)
              | None => panic
              end
        end
    end
  else
    let '(instanceID, instanceRegion, err) :=
      instanceIDFromProviderID (node_ProviderID node) in
    match err with
    | Some e => ret (None, Some e)
    | None =>
        if negb (String.eqb instanceRegion "")
           && negb (String.eqb instanceRegion (region i))
        then ret (None, Some (ErrRegionMismatch (node_ProviderID node) (region i)))
        else
          '(server, err) <- servers.GetExtract TODO (compute i) instanceID ;;
          match metrics.ObserveRequest err with
          | Some _ =>
              if errors.IsNotFound err then ret (None, Some InstanceNotFound)
              else ret (None, err)
          | None => ret (server, None)
          end
    end.

(** InstanceExists indicates whether a given node exists according to the
    cloud provider. *)
Definition InstanceExists (i : InstancesV2) (ctx : Context) (node : Node)
  : M (bool * option error) :=
  '(_, err) <- getInstance i ctx node ;;
  if is_InstanceNotFound err then ret (false, None)
  else match err with
       | Some e => ret (false, Some e)
       | None => ret (true, None)
       end.

(** InstanceShutdown returns true if the instance is shutdown according to
    the cloud provider. *)
Definition InstanceShutdown (i : InstancesV2) (ctx : Context) (node : Node)
  : M (bool * option error) :=
  '(server, err) <- getInstance i ctx node ;;
  match err with
  | Some e => ret (false, Some e)
  | None =>
      match server with
      | None => panic   (* server.Status on a nil pointer *)
      | Some srv =>
          (* SHUTOFF is the only state where we can detach volumes immediately *)
          if String.eqb (Status srv) instanceShutoff then ret (true, None)
          else ret (false, None)
      end
  end.

(** InstanceMetadata returns the instance's metadata. *)
Definition InstanceMetadata (i : InstancesV2) (ctx : Context) (node : Node)
  : M (option cloudprovider.InstanceMetadata * option error) :=
  '(srv, err) <- getInstance i ctx node ;;
  match err with
  | Some e => ret (None, Some e)
  | None =>
      let server := match srv with
                    | Some s => s
                    | None => zero_Server
                    end in
      '(instanceType, err) <- srvInstanceType (compute i) server ;;
      match err with
      | Some e => ret (None, Some e)
      | None =>
          '(ports, err) <- getAttachedPorts (network i) (ID server) ;;
          match err with
          | Some e => ret (None, Some e)
          | None =>
              '(addresses, err) <-
                nodeAddresses server ports (network i) (networkingOpts i) ;;
              match err with
              | Some e => ret (None, Some e)
              | None =>
                  let '(availabilityZone, err) :=
                    sanitizeLabel (AvailabilityZone server) in
                  match err with
                  | Some e => ret (None, Some e)
                  | None =>
                      ret (Some {| cloudprovider.ProviderID := makeInstanceID i server;
                                   cloudprovider.InstanceType := instanceType;
                                   cloudprovider.NodeAddresses := addresses;
                                   cloudprovider.Zone := availabilityZone;
                                   cloudprovider.Region := region i |}, None)
                  end
              end
          end
      end
  end.

(** ** Strings: cutting and formatting *)

Lemma append_empty_r (s : string) : s ++ "" = s.
Proof. induction s as [|c s IH]; simpl; [reflexivity | now rewrite IH]. Qed.

Lemma append_assoc (a b c : string) : (a ++ b) ++ c = a ++ (b ++ c).
Proof. induction a as [|x a IH]; simpl; [reflexivity | now rewrite IH]. Qed.

Lemma CutPrefix_append (prefix s : string) :
  strings.CutPrefix (prefix ++ s) prefix = Some s.
Proof.
  induction prefix as [|p prefix IH]; simpl; [reflexivity|].
  now rewrite Ascii.eqb_refl.
Qed.

Lemma CutByte_first (sep : ascii) (before after : string) :
  strings.ContainsByte before sep = false ->
  strings.CutByte (before ++ String sep after) sep = Some (before, after).
Proof.
  unfold strings.ContainsByte.
  induction before as [|c before IH]; simpl; intros H.
  - now rewrite Ascii.eqb_refl.
  - apply orb_false_elim in H as [Hc Hrest].
    rewrite Ascii.eqb_sym, Hc, (IH Hrest). reflexivity.
Qed.

Lemma eqb_empty_false (s : string) : s <> "" -> String.eqb s "" = false.
Proof. intros H. now apply String.eqb_neq. Qed.

(** The two shapes, as the formatter writes them. *)
Lemma Sprintf_qualified (p r id : string) :
  fmt.Sprintf "%s://%s/%s" [p; r; id] = p ++ "://" ++ r ++ "/" ++ id.
Proof. simpl. now rewrite append_empty_r. Qed.

Lemma Sprintf_unqualified (p id : string) :
  fmt.Sprintf "%s:///%s" [p; id] = p ++ ":///" ++ id.
Proof. simpl. now rewrite append_empty_r. Qed.

Lemma Sprintf_anchored (name : string) :
  fmt.Sprintf "^%s$" [name] = "^" ++ name ++ "$".
Proof. reflexivity. Qed.

(** ** Identity codec *)

(** C4: the encoder writes exactly provider://region/instanceID when the
    deployment is region-qualified and exactly provider:///instanceID, with
    no region segment, when it is not; the provider name is the same
    constant in both. *)
Theorem makeInstanceID_shape (i : InstancesV2) (srv : Server) :
  makeInstanceID i srv =
    if regionProviderID i
    then ProviderName ++ "://" ++ region i ++ "/" ++ ID srv
    else ProviderName ++ ":///" ++ ID srv.
Proof.
  unfold makeInstanceID. destruct (regionProviderID i).
  - apply Sprintf_qualified.
  - apply Sprintf_unqualified.
Qed.

(** Decoding a well-shaped identity: the region holds no slash, the
    instance identifier is not empty and holds no slash. *)
Lemma instanceIDFromProviderID_shape (r id : string) :
  strings.ContainsByte r "/" = false ->
  id <> "" ->
  strings.ContainsByte id "/" = false ->
  instanceIDFromProviderID (ProviderName ++ "://" ++ r ++ "/" ++ id)
    = (id, r, None).
Proof.
  intros Hr Hne Hid. unfold instanceIDFromProviderID.
  replace (ProviderName ++ "://" ++ r ++ "/" ++ id)
    with ((ProviderName ++ "://") ++ (r ++ String "/" id))
    by (now rewrite append_assoc).
  rewrite CutPrefix_append, (CutByte_first _ _ _ Hr).
  now rewrite (eqb_empty_false _ Hne), Hid.
Qed.

(** C3, amended: for an instance identifier that is not empty and holds no
    slash, and a region that holds no slash, decoding what the encoder
    wrote gives back the identifier with the region (region-qualified) or
    with the empty region (unqualified), and no error. *)
Theorem decode_encode_round_trip (i : InstancesV2) (srv : Server) :
  ID srv <> "" ->
  strings.ContainsByte (ID srv) "/" = false ->
  (regionProviderID i = true -> strings.ContainsByte (region i) "/" = false) ->
  instanceIDFromProviderID (makeInstanceID i srv)
    = (ID srv, if regionProviderID i then region i else "", None).
Proof.
  intros Hne Hid Hr. unfold makeInstanceID.
  destruct (regionProviderID i).
  - rewrite Sprintf_qualified. apply instanceIDFromProviderID_shape; auto.
  - rewrite Sprintf_unqualified.
    apply (instanceIDFromProviderID_shape "" (ID srv)); auto.
Qed.

(** The encoder writes the same identity for two different pairs, so no
    decoder whatever gives back every region-qualified pair. *)
Lemma makeInstanceID_collision (i1 i2 : InstancesV2) (s1 s2 : Server) :
  regionProviderID i1 = true -> regionProviderID i2 = true ->
  region i1 = "a" -> ID s1 = "b/c" ->
  region i2 = "a/b" -> ID s2 = "c" ->
  makeInstanceID i1 s1 = makeInstanceID i2 s2.
Proof.
  intros F1 F2 R1 I1 R2 I2. unfold makeInstanceID.
  rewrite F1, F2, !Sprintf_qualified, R1, I1, R2, I2.
  f_equal.
Qed.

(** ** Instance locator *)

Ltac unfold_locator :=
  unfold getInstance, servers.ListAllPages, servers.GetExtract,
    servers.ExtractServers, metrics.ObserveRequest, bind, request, ret, panic.

Ltac split_matches H :=
  repeat match type of H with
         | context [match ?x with _ => _ end] => destruct x eqn:?
         end.

(** The locator always returns: the index into the listing is guarded by
    the two length tests before it. *)
Lemma getInstance_returns (i : InstancesV2) (ctx : Context) (node : Node)
      (log : list Call) :
  exists srv err log1, getInstance i ctx node log = (Return (srv, err), log1).
Proof.
  unfold_locator.
  destruct (String.eqb (node_ProviderID node) "").
  - destruct (compute_list _ _ _) as [allPages [e|]]; [eauto|].
    destruct (page_err allPages); [eauto|].
    destruct (page_servers allPages) as [|s [|s' l]]; simpl; eauto.
  - destruct (instanceIDFromProviderID _) as [[id r] [e|]]; [eauto|].
    destruct (_ && _); [eauto|].
    destruct (compute_get _ _ _) as [srv [e|]]; [|eauto].
    destruct (errors.IsNotFound _); eauto.
Qed.

(** The context handed to the locator plays no part in what it does. *)
Lemma getInstance_any_ctx (i : InstancesV2) (ctx ctx' : Context) (node : Node) :
  getInstance i ctx node = getInstance i ctx' node.
Proof. reflexivity. Qed.

(** Every request the locator sends to the compute service goes out under
    context.TODO(), whatever context the caller supplied. *)
Lemma getInstance_requests_under_TODO (i : InstancesV2) (ctx : Context)
      (node : Node) (log : list Call) :
  exists calls,
    snd (getInstance i ctx node log) = (log ++ calls)%list /\
    Forall (fun c => call_ctx c = Some TODO) calls.
Proof.
  unfold_locator.
  destruct (String.eqb (node_ProviderID node) "").
  - exists [CallServersList TODO {| opt_Name := fmt.Sprintf "^%s$" [node_Name node] |}].
    split; [|repeat constructor].
    destruct (compute_list _ _ _) as [allPages [e|]]; [reflexivity|].
    destruct (page_err allPages); [reflexivity|].
    destruct (page_servers allPages) as [|s [|s' l]]; reflexivity.
  - destruct (instanceIDFromProviderID _) as [[id r] [e|]].
    + exists []. now rewrite app_nil_r.
    + destruct (_ && _).
      * exists []. now rewrite app_nil_r.
      * exists [CallServersGet TODO id]. split; [|repeat constructor].
        destruct (compute_get _ _ _) as [srv [e|]]; [|reflexivity].
        destruct (errors.IsNotFound _); reflexivity.
Qed.

(** An empty listing is absence: the locator returns InstanceNotFound after
    its one list request. *)
Lemma getInstance_empty_listing (i : InstancesV2) (ctx : Context) (node : Node)
      (allPages : Page) (log : list Call) :
  node_ProviderID node = "" ->
  compute_list (compute i) TODO {| opt_Name := "^" ++ node_Name node ++ "$" |}
    = (allPages, None) ->
  page_err allPages = None ->
  page_servers allPages = [] ->
  getInstance i ctx node log
    = (Return (None, Some InstanceNotFound),
       (log ++ [CallServersList TODO
                  {| opt_Name := "^" ++ node_Name node ++ "$" |}])%list).
Proof.
  intros Hid Hlist Herr Hnone.
  unfold_locator. rewrite Hid. simpl String.eqb. cbv iota.
  change (fmt.Sprintf "^%s$" [node_Name node]) with ("^" ++ node_Name node ++ "$").
  now rewrite Hlist, Herr, Hnone.
Qed.

(** C2: a provider identity that decodes to a non-empty region other than
    the configured one gives the region-mismatch error, and the log of
    requests is left as it was: nothing is sent to the remote. *)
Theorem getInstance_region_mismatch (i : InstancesV2) (ctx : Context)
        (node : Node) (instanceID instanceRegion : string) (log : list Call) :
  node_ProviderID node <> "" ->
  instanceIDFromProviderID (node_ProviderID node)
    = (instanceID, instanceRegion, None) ->
  instanceRegion <> "" ->
  instanceRegion <> region i ->
  getInstance i ctx node log
    = (Return (None, Some (ErrRegionMismatch (node_ProviderID node) (region i))),
       log).
Proof.
  intros Hid Hdec Hne Hdiff.
  unfold_locator.
  rewrite (eqb_empty_false _ Hid), Hdec.
  apply String.eqb_neq in Hne, Hdiff. now rewrite Hne, Hdiff.
Qed.

(** C10: on a remote whose get answers a record whenever it answers no
    error, the locator returns a record exactly when it returns no error;
    and metadata that has been produced was built from the record the
    locator returned. *)
Theorem getInstance_record_iff_no_error (i : InstancesV2) (ctx : Context)
        (node : Node) (log log1 : list Call)
        (srv : option Server) (err : option error) :
  (forall c id, compute_get (compute i) c id <> (None, None)) ->
  getInstance i ctx node log = (Return (srv, err), log1) ->
  (srv <> None <-> err = None) /\
  (forall md e log2,
      InstanceMetadata i ctx node log = (Return (Some md, e), log2) ->
      exists s,
        srv = Some s /\
        cloudprovider.ProviderID md = makeInstanceID i s /\
        cloudprovider.Zone md = fst (sanitizeLabel (AvailabilityZone s)) /\
        cloudprovider.Region md = region i).
Proof.
  intros Hget Hloc.
  assert (Hiff : srv <> None <-> err = None).
  { revert Hloc. unfold_locator. intros Hloc.
    split_matches Hloc; inversion Hloc; subst; split; congruence. }
  split; [exact Hiff|].
  intros md e log2 Hmd.
  unfold InstanceMetadata, bind in Hmd. rewrite Hloc in Hmd.
  destruct err as [e0|]; [inversion Hmd|].
  destruct srv as [s|]; [|now destruct Hiff as [_ Hiff]; specialize (Hiff eq_refl)].
  exists s. split; [reflexivity|].
  unfold srvInstanceType, getAttachedPorts, nodeAddresses, request, ret in Hmd.
  split_matches Hmd; inversion Hmd; subst; simpl.
  now repeat split.
Qed.

(** ** Existence and power-state queries *)

(** C7: InstanceExists answers (false, nil) exactly when the locator
    failed with InstanceNotFound, (true, nil) exactly when the locator
    returned no error, and hands on every other error of the locator as it
    is; it sends no request of its own. *)
Theorem InstanceExists_follows_locator (i : InstancesV2) (ctx : Context)
        (node : Node) (log log1 : list Call)
        (srv : option Server) (err : option error) :
  getInstance i ctx node log = (Return (srv, err), log1) ->
  (InstanceExists i ctx node log = (Return (false, None), log1)
     <-> err = Some InstanceNotFound) /\
  (InstanceExists i ctx node log = (Return (true, None), log1)
     <-> err = None) /\
  (forall e, err = Some e -> e <> InstanceNotFound ->
     InstanceExists i ctx node log = (Return (false, Some e), log1)).
Proof.
  intros Hloc. unfold InstanceExists, bind. rewrite Hloc.
  destruct err as [e|]; [destruct e|]; simpl; unfold ret;
    repeat split; intros; congruence.
Qed.

(** C8: when the locator returned an instance and no error,
    InstanceShutdown answers (true, nil) if the status of that instance is
    the powered-off one and (false, nil) for every other status; an error
    of the locator is handed on as it is. *)
Theorem InstanceShutdown_follows_status (i : InstancesV2) (ctx : Context)
        (node : Node) (log log1 : list Call)
        (srv : option Server) (err : option error) :
  getInstance i ctx node log = (Return (srv, err), log1) ->
  (forall s, srv = Some s -> err = None ->
     (InstanceShutdown i ctx node log = (Return (true, None), log1)
        <-> Status s = instanceShutoff) /\
     (Status s <> instanceShutoff ->
        InstanceShutdown i ctx node log = (Return (false, None), log1))) /\
  (forall e, err = Some e ->
     InstanceShutdown i ctx node log = (Return (false, Some e), log1)).
Proof.
  intros Hloc. unfold InstanceShutdown, bind. rewrite Hloc. split.
  - intros s -> ->.
    destruct (String.eqb_spec (Status s) instanceShutoff) as [Hs|Hs];
      unfold ret; repeat split; intros; congruence.
  - now intros e ->.
Qed.

(** ** Further properties of the codec *)

Lemma append_cancel_l (p a b : string) : p ++ a = p ++ b -> a = b.
Proof.
  induction p as [|c p IH]; simpl; intros H; [exact H|].
  injection H as H. now apply IH.
Qed.

(** X6: in region-qualified mode a slash can move between region and
    instance identifier without changing the identity: region r with
    identifier x/id and region r/x with identifier id are written alike. *)
Theorem makeInstanceID_slash_shift (i1 i2 : InstancesV2) (s1 s2 : Server)
        (x : string) :
  regionProviderID i1 = true ->
  regionProviderID i2 = true ->
  region i2 = region i1 ++ "/" ++ x ->
  ID s1 = x ++ "/" ++ ID s2 ->
  makeInstanceID i1 s1 = makeInstanceID i2 s2.
Proof.
  intros F1 F2 R I. unfold makeInstanceID.
  rewrite F1, F2, !Sprintf_qualified, R, I.
  do 2 f_equal. rewrite append_assoc. reflexivity.
Qed.

(** X7: without region qualification two instances get the same identity
    only if they have the same identifier, whatever the regions. *)
Theorem makeInstanceID_unqualified_injective (i1 i2 : InstancesV2)
        (s1 s2 : Server) :
  regionProviderID i1 = false ->
  regionProviderID i2 = false ->
  makeInstanceID i1 s1 = makeInstanceID i2 s2 ->
  ID s1 = ID s2.
Proof.
  intros F1 F2. unfold makeInstanceID.
  rewrite F1, F2, !Sprintf_unqualified. intros H.
  apply append_cancel_l in H. now apply (append_cancel_l ":///") in H.
Qed.

(** X8: with region qualification and regions that hold no slash, the
    identity determines both the region and the instance identifier. *)
Theorem makeInstanceID_qualified_injective (i1 i2 : InstancesV2)
        (s1 s2 : Server) :
  regionProviderID i1 = true ->
  regionProviderID i2 = true ->
  strings.ContainsByte (region i1) "/" = false ->
  strings.ContainsByte (region i2) "/" = false ->
  makeInstanceID i1 s1 = makeInstanceID i2 s2 ->
  region i1 = region i2 /\ ID s1 = ID s2.
Proof.
  intros F1 F2 R1 R2. unfold makeInstanceID.
  rewrite F1, F2, !Sprintf_qualified. intros H.
  apply append_cancel_l in H. apply (append_cancel_l "://") in H.
  apply (f_equal (fun s => strings.CutByte s "/")) in H.
  cbv beta in H. cbn [append] in H.
  rewrite (CutByte_first _ _ _ R1), (CutByte_first _ _ _ R2) in H.
  injection H as Hr Hid. now split.
Qed.

(** ** Further properties of the locator *)

(** X9: a list request that fails is reported as a listing error that wraps
    the cause, after one list request; it is not read as absence, so
    InstanceExists hands the error on. *)
Theorem getInstance_list_failure (i : InstancesV2) (ctx : Context) (node : Node)
        (allPages : Page) (e : error) (log : list Call) :
  let opt := {| opt_Name := "^" ++ node_Name node ++ "$" |} in
  node_ProviderID node = "" ->
  compute_list (compute i) TODO opt = (allPages, Some e) ->
  getInstance i ctx node log
    = (Return (None, Some (ErrListingServers opt (Some e))),
       (log ++ [CallServersList TODO opt])%list) /\
  InstanceExists i ctx node log
    = (Return (false, Some (ErrListingServers opt (Some e))),
       (log ++ [CallServersList TODO opt])%list).
Proof.
  intros opt Hid Hlist.
  assert (H : getInstance i ctx node log
              = (Return (None, Some (ErrListingServers opt (Some e))),
                 (log ++ [CallServersList TODO opt])%list)).
  { unfold_locator. rewrite Hid. simpl String.eqb. cbv iota.
    change (fmt.Sprintf "^%s$" [node_Name node]) with ("^" ++ node_Name node ++ "$").
    fold opt. now rewrite Hlist. }
  split; [exact H|].
  unfold InstanceExists, bind. now rewrite H.
Qed.

(** X11: a provider identity that does not decode makes the locator return
    the decoder's error without sending any request. *)
Theorem getInstance_malformed_identity (i : InstancesV2) (ctx : Context)
        (node : Node) (instanceID instanceRegion : string) (e : error)
        (log : list Call) :
  node_ProviderID node <> "" ->
  instanceIDFromProviderID (node_ProviderID node)
    = (instanceID, instanceRegion, Some e) ->
  getInstance i ctx node log = (Return (None, Some e), log).
Proof.
  intros Hid Hdec. unfold_locator.
  now rewrite (eqb_empty_false _ Hid), Hdec.
Qed.

(** The by-identifier path, once the identity is decoded and its region
    accepted. *)
Lemma getInstance_by_id_aux (i : InstancesV2) (ctx : Context) (node : Node)
        (instanceID instanceRegion : string) (log : list Call) :
  node_ProviderID node <> "" ->
  instanceIDFromProviderID (node_ProviderID node)
    = (instanceID, instanceRegion, None) ->
  instanceRegion = "" \/ instanceRegion = region i ->
  getInstance i ctx node log
    = (Return (match compute_get (compute i) TODO instanceID with
               | (server, None) => (server, None)
               | (_, Some e) =>
                   if errors.IsNotFound (Some e)
                   then (None, Some InstanceNotFound)
                   else (None, Some e)
               end),
       (log ++ [CallServersGet TODO instanceID])%list).
Proof.
  intros Hid Hdec Hregion. unfold_locator.
  rewrite (eqb_empty_false _ Hid), Hdec.
  assert (Hgate : negb (String.eqb instanceRegion "")
                  && negb (String.eqb instanceRegion (region i)) = false).
  { destruct Hregion as [-> | ->].
    - reflexivity.
    - rewrite String.eqb_refl. apply andb_false_r. }
  rewrite Hgate.
  destruct (compute_get (compute i) TODO instanceID) as [server [e|]];
    [|reflexivity].
  now destruct (errors.IsNotFound (Some e)).
Qed.

(** X12: a provider identity that decodes to no region or to the configured
    region is resolved by one get request for the decoded identifier; when
    the get succeeds its instance is returned, and any failure that is not
    a not-found one is returned as it is. *)
Theorem getInstance_by_id (i : InstancesV2) (ctx : Context) (node : Node)
        (instanceID instanceRegion : string) (log : list Call)
        (server : option Server) (err : option error) :
  node_ProviderID node <> "" ->
  instanceIDFromProviderID (node_ProviderID node)
    = (instanceID, instanceRegion, None) ->
  instanceRegion = "" \/ instanceRegion = region i ->
  compute_get (compute i) TODO instanceID = (server, err) ->
  errors.IsNotFound err = false ->
  getInstance i ctx node log
    = (Return (match err with
               | None => (server, None)
               | Some e => (None, Some e)
               end),
       (log ++ [CallServersGet TODO instanceID])%list).
Proof.
  intros Hid Hdec Hregion Hget Hnf.
  rewrite (getInstance_by_id_aux i ctx node instanceID instanceRegion log
             Hid Hdec Hregion), Hget.
  destruct err as [e|]; [now rewrite Hnf | reflexivity].
Qed.

(** X13: the locator sends one list request and nothing else for a node
    without provider identity, and for a node with one it sends nothing or
    one get request; it never sends two requests, and never a list request
    for a node that carries an identity. *)
Theorem getInstance_requests (i : InstancesV2) (ctx : Context) (node : Node)
        (log : list Call) :
  if String.eqb (node_ProviderID node) ""
  then snd (getInstance i ctx node log)
       = (log ++ [CallServersList TODO
                    {| opt_Name := "^" ++ node_Name node ++ "$" |}])%list
  else snd (getInstance i ctx node log) = log \/
       exists id, snd (getInstance i ctx node log)
                  = (log ++ [CallServersGet TODO id])%list.
Proof.
  unfold_locator.
  destruct (String.eqb (node_ProviderID node) "").
  - change (fmt.Sprintf "^%s$" [node_Name node]) with ("^" ++ node_Name node ++ "$").
    destruct (compute_list _ _ _) as [allPages [e|]]; [reflexivity|].
    destruct (page_err allPages); [reflexivity|].
    destruct (page_servers allPages) as [|s [|s' l]]; reflexivity.
  - destruct (instanceIDFromProviderID _) as [[id r] [e|]]; [now left|].
    destruct (_ && _); [now left|].
    right. exists id.
    destruct (compute_get _ _ _) as [srv [e|]]; [|reflexivity].
    destruct (errors.IsNotFound _); reflexivity.
Qed.

(** X14: when the get fails with a not-found error, the locator returns the
    InstanceNotFound sentinel in place of the remote's error, and
    InstanceExists answers (false, nil). *)
Theorem InstanceExists_get_not_found (i : InstancesV2) (ctx : Context)
        (node : Node) (instanceID instanceRegion : string)
        (server : option Server) (e : error) (log : list Call) :
  node_ProviderID node <> "" ->
  instanceIDFromProviderID (node_ProviderID node)
    = (instanceID, instanceRegion, None) ->
  instanceRegion = "" \/ instanceRegion = region i ->
  compute_get (compute i) TODO instanceID = (server, Some e) ->
  errors.IsNotFound (Some e) = true ->
  getInstance i ctx node log
    = (Return (None, Some InstanceNotFound),
       (log ++ [CallServersGet TODO instanceID])%list) /\
  InstanceExists i ctx node log
    = (Return (false, None), (log ++ [CallServersGet TODO instanceID])%list).
Proof.
  intros Hid Hdec Hregion Hget Hnf.
  unfold InstanceExists, bind.
  rewrite (getInstance_by_id_aux i ctx node instanceID instanceRegion log
             Hid Hdec Hregion), Hget, Hnf.
  split; reflexivity.
Qed.

(** X23: a node whose identity names another region is an error for all
    three resolutions, with no request sent; in particular InstanceExists
    does not report the instance as gone. *)
Theorem resolutions_region_mismatch (i : InstancesV2) (ctx : Context)
        (node : Node) (instanceID instanceRegion : string) (log : list Call) :
  let mismatch := ErrRegionMismatch (node_ProviderID node) (region i) in
  node_ProviderID node <> "" ->
  instanceIDFromProviderID (node_ProviderID node)
    = (instanceID, instanceRegion, None) ->
  instanceRegion <> "" ->
  instanceRegion <> region i ->
  InstanceExists i ctx node log = (Return (false, Some mismatch), log) /\
  InstanceShutdown i ctx node log = (Return (false, Some mismatch), log) /\
  InstanceMetadata i ctx node log = (Return (None, Some mismatch), log).
Proof.
  intros mismatch Hid Hdec Hne Hdiff.
  assert (H : getInstance i ctx node log = (Return (None, Some mismatch), log)).
  { unfold_locator. rewrite (eqb_empty_false _ Hid), Hdec.
    apply String.eqb_neq in Hne, Hdiff. now rewrite Hne, Hdiff. }
  unfold InstanceExists, InstanceShutdown, InstanceMetadata, bind.
  rewrite H. repeat split.
Qed.

(** X24: when the listing for a node without identity holds two or more
    instances, InstanceExists and InstanceShutdown both fail with the
    ambiguity error; neither answers from one of the instances. *)
Theorem queries_ambiguous (i : InstancesV2) (ctx : Context) (node : Node)
        (allPages : Page) (log : list Call) :
  let opt := {| opt_Name := "^" ++ node_Name node ++ "$" |} in
  node_ProviderID node = "" ->
  compute_list (compute i) TODO opt = (allPages, None) ->
  page_err allPages = None ->
  2 <= List.length (page_servers allPages) ->
  InstanceExists i ctx node log
    = (Return (false, Some ErrMultipleInstances),
       (log ++ [CallServersList TODO opt])%list) /\
  InstanceShutdown i ctx node log
    = (Return (false, Some ErrMultipleInstances),
       (log ++ [CallServersList TODO opt])%list).
Proof.
  intros opt Hid Hlist Herr Hlen.
  assert (H : getInstance i ctx node log
              = (Return (None, Some ErrMultipleInstances),
                 (log ++ [CallServersList TODO opt])%list)).
  { unfold_locator. rewrite Hid. simpl String.eqb. cbv iota.
    change (fmt.Sprintf "^%s$" [node_Name node]) with ("^" ++ node_Name node ++ "$").
    fold opt. rewrite Hlist, Herr.
    destruct (page_servers allPages) as [|s [|s' l]]; simpl in *;
      [lia | lia | reflexivity]. }
  unfold InstanceExists, InstanceShutdown, bind. rewrite H. split; reflexivity.
Qed.

(** X25: the locator takes the listing at its word: when it holds exactly
    one instance, that instance is returned, and its name is not compared
    with the name of the node. *)
Theorem getInstance_single_listed (i : InstancesV2) (ctx : Context) (node : Node)
        (allPages : Page) (s : Server) (log : list Call) :
  let opt := {| opt_Name := "^" ++ node_Name node ++ "$" |} in
  node_ProviderID node = "" ->
  compute_list (compute i) TODO opt = (allPages, None) ->
  page_err allPages = None ->
  page_servers allPages = [s] ->
  getInstance i ctx node log
    = (Return (Some s, None), (log ++ [CallServersList TODO opt])%list).
Proof.
  intros opt Hid Hlist Herr Hone.
  unfold_locator. rewrite Hid. simpl String.eqb. cbv iota.
  change (fmt.Sprintf "^%s$" [node_Name node]) with ("^" ++ node_Name node ++ "$").
  fold opt. now rewrite Hlist, Herr, Hone.
Qed.

(** ** Metadata *)

Ltac unfold_metadata :=
  unfold InstanceMetadata, srvInstanceType, getAttachedPorts, nodeAddresses,
    bind, request, ret.

(** X15: InstanceMetadata always returns, and it returns a record exactly
    when it returns no error: never a record beside an error, never
    neither. *)
Theorem InstanceMetadata_record_xor_error (i : InstancesV2) (ctx : Context)
        (node : Node) (log : list Call) :
  exists md err log1,
    InstanceMetadata i ctx node log = (Return (md, err), log1) /\
    (md <> None <-> err = None).
Proof.
  destruct (getInstance_returns i ctx node log) as (srv & err & log1 & Hloc).
  unfold_metadata. rewrite Hloc.
  destruct err as [e|].
  { do 3 eexists. split; [reflexivity|]. split; congruence. }
  destruct (compute_instance_type _ _) as [t [e|]].
  { do 3 eexists. split; [reflexivity|]. split; congruence. }
  destruct (network_ports _ _) as [ports [e|]].
  { do 3 eexists. split; [reflexivity|]. split; congruence. }
  destruct (network_addresses _ _ _ _) as [addrs [e|]].
  { do 3 eexists. split; [reflexivity|]. split; congruence. }
  do 3 eexists. split; [reflexivity|]. split; congruence.
Qed.

(** X16: an error of the locator ends InstanceMetadata at once: the error
    is returned without a record, and no collaborator is asked. *)
Theorem InstanceMetadata_locator_error (i : InstancesV2) (ctx : Context)
        (node : Node) (log log1 : list Call) (srv : option Server) (e : error) :
  getInstance i ctx node log = (Return (srv, Some e), log1) ->
  InstanceMetadata i ctx node log = (Return (None, Some e), log1).
Proof. intros Hloc. unfold_metadata. now rewrite Hloc. Qed.

(** X17: the collaborators are asked in the order instance type, attached
    ports, addresses, and the first failure ends the call with that error:
    after a failed instance-type lookup no ports are listed, after a failed
    port listing no addresses are derived. *)
Theorem InstanceMetadata_first_failure (i : InstancesV2) (ctx : Context)
        (node : Node) (log log1 : list Call) (s : Server) :
  getInstance i ctx node log = (Return (Some s, None), log1) ->
  (forall t e,
      compute_instance_type (compute i) s = (t, Some e) ->
      InstanceMetadata i ctx node log
        = (Return (None, Some e), (log1 ++ [CallInstanceType (ID s)])%list)) /\
  (forall t ports e,
      compute_instance_type (compute i) s = (t, None) ->
      network_ports (network i) (ID s) = (ports, Some e) ->
      InstanceMetadata i ctx node log
        = (Return (None, Some e),
           (log1 ++ [CallInstanceType (ID s); CallAttachedPorts (ID s)])%list)) /\
  (forall t ports addrs e,
      compute_instance_type (compute i) s = (t, None) ->
      network_ports (network i) (ID s) = (ports, None) ->
      network_addresses (network i) s ports (networkingOpts i) = (addrs, Some e) ->
      InstanceMetadata i ctx node log
        = (Return (None, Some e),
           (log1 ++ [CallInstanceType (ID s); CallAttachedPorts (ID s);
                     CallNodeAddresses (ID s)])%list)).
Proof.
  intros Hloc. unfold_metadata. rewrite Hloc. repeat split.
  - intros t e Ht. now rewrite Ht.
  - intros t ports e Ht Hp. rewrite Ht, Hp. now rewrite <- app_assoc.
  - intros t ports addrs e Ht Hp Ha. rewrite Ht, Hp, Ha.
    now rewrite <- !app_assoc.
Qed.

(** X18: when the locator and the three collaborators succeed, the record
    holds the encoded identity of the located instance, the type and the
    addresses as the collaborators gave them, the sanitized availability
    zone and the configured region; the collaborators were asked once each,
    in order, for the located instance. *)
Theorem InstanceMetadata_success (i : InstancesV2) (ctx : Context)
        (node : Node) (log log1 : list Call) (s : Server)
        (t : string) (ports : list Port) (addrs : list NodeAddress) :
  getInstance i ctx node log = (Return (Some s, None), log1) ->
  compute_instance_type (compute i) s = (t, None) ->
  network_ports (network i) (ID s) = (ports, None) ->
  network_addresses (network i) s ports (networkingOpts i) = (addrs, None) ->
  InstanceMetadata i ctx node log
    = (Return (Some {| cloudprovider.ProviderID := makeInstanceID i s;
                       cloudprovider.InstanceType := t;
                       cloudprovider.NodeAddresses := addrs;
                       cloudprovider.Zone := fst (sanitizeLabel (AvailabilityZone s));
                       cloudprovider.Region := region i |}, None),
       (log1 ++ [CallInstanceType (ID s); CallAttachedPorts (ID s);
                 CallNodeAddresses (ID s)])%list).
Proof.
  intros Hloc Ht Hp Ha. unfold_metadata.
  rewrite Hloc, Ht, Hp, Ha. now rewrite <- !app_assoc.
Qed.

End Deployment.

(** ** Label sanitizer: bounds *)

Lemma length_ToLower (s : string) :
  String.length (strings.ToLower s) = String.length s.
Proof. induction s as [|c s IH]; simpl; [reflexivity | now rewrite IH]. Qed.

Lemma length_substring_le (n : nat) (s : string) :
  String.length (substring 0 n s) <= n.
Proof.
  revert s. induction n as [|n IH]; intros [|c s]; simpl; try lia.
  specialize (IH s). lia.
Qed.

Lemma all_bytes_append (p : ascii -> bool) (a b : string) :
  all_bytes p (a ++ b) = all_bytes p a && all_bytes p b.
Proof.
  induction a as [|c a IH]; simpl; [reflexivity|].
  now rewrite IH, andb_assoc.
Qed.

Lemma all_bytes_ReplaceAllRuns (inClass : ascii -> bool) (repl : string)
      (inRun : bool) (input : string) :
  all_bytes inClass repl = true ->
  all_bytes inClass (regexp.ReplaceAllRuns inClass repl inRun input) = true.
Proof.
  intros Hrepl. revert inRun.
  induction input as [|c rest IH]; intros inRun; simpl; [reflexivity|].
  destruct (inClass c) eqn:Hc; simpl.
  - now rewrite Hc, IH.
  - destruct inRun; [apply IH|].
    now rewrite all_bytes_append, Hrepl, IH.
Qed.

Lemma all_bytes_TrimLeft (p : ascii -> bool) (s cutset : string) :
  all_bytes p s = true -> all_bytes p (strings.TrimLeft s cutset) = true.
Proof.
  induction s as [|c s IH]; simpl; [reflexivity|].
  intros H. apply andb_prop in H as [Hc Hs].
  destruct (byte_in cutset c); [now apply IH|].
  simpl. now rewrite Hc, Hs.
Qed.

Lemma all_bytes_TrimRight (p : ascii -> bool) (s cutset : string) :
  all_bytes p s = true -> all_bytes p (strings.TrimRight s cutset) = true.
Proof.
  induction s as [|c s IH]; simpl; [reflexivity|].
  intros H. apply andb_prop in H as [Hc Hs]. specialize (IH Hs).
  destruct (strings.TrimRight s cutset) as [|d t].
  - destruct (byte_in cutset c); simpl; [reflexivity | now rewrite Hc].
  - simpl in *. now rewrite Hc, IH.
Qed.

Lemma all_bytes_substring (p : ascii -> bool) (n : nat) (s : string) :
  all_bytes p s = true -> all_bytes p (substring 0 n s) = true.
Proof.
  revert s. induction n as [|n IH]; intros [|c s]; simpl; try reflexivity.
  intros H. apply andb_prop in H as [Hc Hs]. now rewrite Hc, IH.
Qed.

Lemma lower_byte_label (c : ascii) :
  label_byte c = true -> lower_label_byte (strings.lower_byte c) = true.
Proof.
  destruct c as [[] [] [] [] [] [] [] []]; vm_compute; congruence.
Qed.

Lemma all_bytes_ToLower (s : string) :
  all_bytes label_byte s = true ->
  all_bytes lower_label_byte (strings.ToLower s) = true.
Proof.
  induction s as [|c s IH]; simpl; [reflexivity|].
  intros H. apply andb_prop in H as [Hc Hs].
  now rewrite (lower_byte_label _ Hc), IH.
Qed.

(** The sanitizer never reports an error. *)
Lemma sanitizeLabel_no_error (input : string) : snd (sanitizeLabel input) = None.
Proof. reflexivity. Qed.

(** The label is at most 63 bytes long. *)
Lemma sanitizeLabel_length (input : string) :
  String.length (fst (sanitizeLabel input)) <= 63.
Proof.
  unfold sanitizeLabel. cbn [fst]. rewrite length_ToLower.
  destruct (Nat.ltb 63 _) eqn:Hlen.
  - apply length_substring_le.
  - apply Nat.ltb_ge in Hlen. exact Hlen.
Qed.

(** The label holds lower-case letters, digits, dashes, underscores and
    dots only. *)
Lemma sanitizeLabel_bytes (input : string) :
  all_bytes lower_label_byte (fst (sanitizeLabel input)) = true.
Proof.
  unfold sanitizeLabel. cbn [fst]. apply all_bytes_ToLower.
  assert (H : all_bytes label_byte
                (strings.Trim (regexp.ReplaceAllRuns label_byte "-" false input) "-_.")
              = true).
  { unfold strings.Trim.
    apply all_bytes_TrimRight, all_bytes_TrimLeft, all_bytes_ReplaceAllRuns.
    reflexivity. }
  destruct (Nat.ltb 63 _); [now apply all_bytes_substring | exact H].
Qed.

(** ** Label sanitizer: first and last byte *)

Lemma byte_in_cutset_lower (c : ascii) :
  byte_in "-_." (strings.lower_byte c) = byte_in "-_." c.
Proof. destruct c as [[] [] [] [] [] [] [] []]; reflexivity. Qed.

Lemma first_byte_TrimLeft (s cutset : string) (c : ascii) :
  first_byte (strings.TrimLeft s cutset) = Some c -> byte_in cutset c = false.
Proof.
  induction s as [|d s IH]; simpl; [discriminate|].
  destruct (byte_in cutset d) eqn:Hd; [exact IH|].
  simpl. intros H. injection H as <-. exact Hd.
Qed.

Lemma first_byte_TrimRight (s cutset : string) (c : ascii) :
  first_byte (strings.TrimRight s cutset) = Some c -> first_byte s = Some c.
Proof.
  destruct s as [|d s]; simpl; [discriminate|].
  destruct (strings.TrimRight s cutset); [|trivial].
  destruct (byte_in cutset d); [discriminate | trivial].
Qed.

Lemma first_byte_substring (n : nat) (s : string) (c : ascii) :
  first_byte (substring 0 n s) = Some c -> first_byte s = Some c.
Proof. destruct n, s; simpl; trivial; discriminate. Qed.

Lemma first_byte_ToLower (s : string) :
  first_byte (strings.ToLower s) = option_map strings.lower_byte (first_byte s).
Proof. destruct s; reflexivity. Qed.

Lemma last_byte_TrimRight (s cutset : string) (c : ascii) :
  last_byte (strings.TrimRight s cutset) = Some c -> byte_in cutset c = false.
Proof.
  induction s as [|d s IH]; simpl; [discriminate|].
  destruct (strings.TrimRight s cutset) as [|e t].
  - destruct (byte_in cutset d) eqn:Hd; simpl; [discriminate|].
    intros H. injection H as <-. exact Hd.
  - exact IH.
Qed.

Lemma last_byte_ToLower (s : string) :
  last_byte (strings.ToLower s) = option_map strings.lower_byte (last_byte s).
Proof.
  induction s as [|d s IH]; [reflexivity|].
  destruct s as [|e s]; [reflexivity|]. exact IH.
Qed.

(** A label never starts with a dash, an underscore or a dot. *)
Lemma sanitizeLabel_first_byte (input : string) (c : ascii) :
  first_byte (fst (sanitizeLabel input)) = Some c -> byte_in "-_." c = false.
Proof.
  unfold sanitizeLabel. cbn [fst]. rewrite first_byte_ToLower.
  set (trimmed := strings.Trim _ _).
  assert (Htrim : forall d, first_byte trimmed = Some d -> byte_in "-_." d = false).
  { intros d Hd. apply first_byte_TrimRight in Hd.
    now apply first_byte_TrimLeft in Hd. }
  intros H.
  destruct (first_byte (if Nat.ltb 63 _ then _ else _)) as [d|] eqn:Hd;
    [|discriminate].
  injection H as <-. rewrite byte_in_cutset_lower. apply Htrim.
  destruct (Nat.ltb 63 _); [now apply first_byte_substring in Hd | exact Hd].
Qed.

(** A label that was not cut down to 63 bytes does not end with a dash, an
    underscore or a dot either. *)
Lemma sanitizeLabel_last_byte_uncut (input : string) (c : ascii) :
  String.length
    (strings.Trim (regexp.ReplaceAllRuns label_byte "-" false input) "-_.") <= 63 ->
  last_byte (fst (sanitizeLabel input)) = Some c -> byte_in "-_." c = false.
Proof.
  unfold sanitizeLabel. cbn [fst]. intros Hlen.
  apply Nat.ltb_ge in Hlen. rewrite Hlen, last_byte_ToLower.
  destruct (last_byte _) as [d|] eqn:Hd; [|discriminate].
  intros H. injection H as <-. rewrite byte_in_cutset_lower.
  now apply last_byte_TrimRight in Hd.
Qed.

(** ** Label sanitizer: where it is idempotent *)

Lemma ReplaceAllRuns_in_class (inClass : ascii -> bool) (repl : string)
      (inRun : bool) (s : string) :
  all_bytes inClass s = true -> regexp.ReplaceAllRuns inClass repl inRun s = s.
Proof.
  revert inRun. induction s as [|c s IH]; intros inRun; simpl; [reflexivity|].
  intros H. apply andb_prop in H as [Hc Hs]. now rewrite Hc, IH.
Qed.

Lemma TrimLeft_kept (s cutset : string) :
  (forall c, first_byte s = Some c -> byte_in cutset c = false) ->
  strings.TrimLeft s cutset = s.
Proof.
  destruct s as [|d s]; simpl; [reflexivity|].
  intros H. now rewrite (H d eq_refl).
Qed.

Lemma TrimRight_kept (s cutset : string) :
  (forall c, last_byte s = Some c -> byte_in cutset c = false) ->
  strings.TrimRight s cutset = s.
Proof.
  induction s as [|d s IH]; [reflexivity|].
  intros H. simpl. destruct s as [|e s].
  - simpl. now rewrite (H d eq_refl).
  - rewrite IH; [reflexivity | exact H].
Qed.

Lemma lower_label_byte_label (c : ascii) :
  lower_label_byte c = true -> label_byte c = true.
Proof.
  unfold lower_label_byte, label_byte, is_alnum.
  destruct (is_lower c), (is_digit c), (is_upper c); simpl; trivial; discriminate.
Qed.

Lemma lower_byte_lower_label (c : ascii) :
  lower_label_byte c = true -> strings.lower_byte c = c.
Proof.
  destruct c as [[] [] [] [] [] [] [] []]; vm_compute; congruence.
Qed.

Lemma all_bytes_weaken (p q : ascii -> bool) (s : string) :
  (forall c, p c = true -> q c = true) ->
  all_bytes p s = true -> all_bytes q s = true.
Proof.
  intros Hpq. induction s as [|c s IH]; simpl; [reflexivity|].
  intros H. apply andb_prop in H as [Hc Hs]. now rewrite (Hpq _ Hc), IH.
Qed.

Lemma ToLower_lower_label (s : string) :
  all_bytes lower_label_byte s = true -> strings.ToLower s = s.
Proof.
  induction s as [|c s IH]; simpl; [reflexivity|].
  intros H. apply andb_prop in H as [Hc Hs].
  now rewrite (lower_byte_lower_label _ Hc), IH.
Qed.

(** The sanitizer leaves alone a string that is already a label: at most 63
    lower-case label bytes, with no dash, underscore or dot at either end. *)
Lemma sanitizeLabel_fixed_point (s : string) :
  all_bytes lower_label_byte s = true ->
  (forall c, first_byte s = Some c -> byte_in "-_." c = false) ->
  (forall c, last_byte s = Some c -> byte_in "-_." c = false) ->
  String.length s <= 63 ->
  sanitizeLabel s = (s, None).
Proof.
  intros Hbytes Hfirst Hlast Hlen. unfold sanitizeLabel, strings.Trim.
  rewrite ReplaceAllRuns_in_class
    by (eapply all_bytes_weaken; [exact lower_label_byte_label | exact Hbytes]).
  rewrite (TrimLeft_kept _ _ Hfirst), (TrimRight_kept _ _ Hlast).
  apply Nat.ltb_ge in Hlen. rewrite Hlen.
  now rewrite (ToLower_lower_label _ Hbytes).
Qed.

(** X5: sanitizing twice is sanitizing once whenever the label does not
    end with a dash, an underscore or a dot. *)
Lemma sanitizeLabel_idempotent_clean_end (input : string) :
  (forall c, last_byte (fst (sanitizeLabel input)) = Some c ->
             byte_in "-_." c = false) ->
  sanitizeLabel (fst (sanitizeLabel input)) = sanitizeLabel input.
Proof.
  intros Hlast.
  rewrite sanitizeLabel_fixed_point.
  - now destruct (sanitizeLabel input) as [label err] eqn:H;
      injection H as _ <-.
  - apply sanitizeLabel_bytes.
  - apply sanitizeLabel_first_byte.
  - exact Hlast.
  - apply sanitizeLabel_length.
Qed.

(** ** Label sanitizer: what every label is like *)

Lemma first_byte_all_bytes (p : ascii -> bool) (s : string) (c : ascii) :
  all_bytes p s = true -> first_byte s = Some c -> p c = true.
Proof.
  destruct s as [|d s]; simpl; [discriminate|].
  intros H Hc. injection Hc as <-. now apply andb_prop in H.
Qed.

Lemma last_byte_all_bytes (p : ascii -> bool) (s : string) (c : ascii) :
  all_bytes p s = true -> last_byte s = Some c -> p c = true.
Proof.
  induction s as [|d s IH]; [discriminate|].
  intros H. change (p d && all_bytes p s = true) in H.
  apply andb_prop in H as [Hd Hs].
  destruct s as [|e s].
  - simpl. intros Hc. now injection Hc as <-.
  - intros Hc. now apply IH.
Qed.

Lemma lower_label_not_cutset (c : ascii) :
  lower_label_byte c = true -> byte_in "-_." c = false ->
  is_lower c || is_digit c = true.
Proof.
  unfold lower_label_byte. intros H Hcut. rewrite Hcut, orb_false_r in H.
  exact H.
Qed.

(** X1: for every input the sanitizer reports no error and returns at most
    63 bytes, each a lower-case letter, a digit, a dash, an underscore or a
    dot, the first of which is a lower-case letter or a digit. *)
Theorem sanitizeLabel_wellformed (input : string) :
  snd (sanitizeLabel input) = None /\
  String.length (fst (sanitizeLabel input)) <= 63 /\
  all_bytes lower_label_byte (fst (sanitizeLabel input)) = true /\
  (forall c, first_byte (fst (sanitizeLabel input)) = Some c ->
             is_lower c || is_digit c = true).
Proof.
  split; [reflexivity|]. split; [apply sanitizeLabel_length|].
  split; [apply sanitizeLabel_bytes|].
  intros c Hc. apply lower_label_not_cutset.
  - exact (first_byte_all_bytes _ _ _ (sanitizeLabel_bytes input) Hc).
  - exact (sanitizeLabel_first_byte input c Hc).
Qed.

(** X2: a label that did not have to be cut down to 63 bytes also ends
    with a lower-case letter or a digit. *)
Theorem sanitizeLabel_uncut_ends_alnum (input : string) (c : ascii) :
  String.length
    (strings.Trim (regexp.ReplaceAllRuns label_byte "-" false input) "-_.") <= 63 ->
  last_byte (fst (sanitizeLabel input)) = Some c ->
  is_lower c || is_digit c = true.
Proof.
  intros Hlen Hc. apply lower_label_not_cutset.
  - exact (last_byte_all_bytes _ _ _ (sanitizeLabel_bytes input) Hc).
  - exact (sanitizeLabel_last_byte_uncut input c Hlen Hc).
Qed.

(** ** Label sanitizer: the empty label *)

Lemma alnum_not_cutset (c : ascii) :
  is_alnum c = true -> byte_in "-_." c = false.
Proof. destruct c as [[] [] [] [] [] [] [] []]; vm_compute; congruence. Qed.

Lemma some_alnum_ReplaceAllRuns (inRun : bool) (s : string) :
  some_byte is_alnum (regexp.ReplaceAllRuns label_byte "-" inRun s)
  = some_byte is_alnum s.
Proof.
  revert inRun. induction s as [|c s IH]; intros inRun; [reflexivity|].
  simpl. destruct (label_byte c) eqn:Hc.
  - simpl. now rewrite IH.
  - assert (Ha : is_alnum c = false).
    { unfold label_byte in Hc. now apply orb_false_elim in Hc. }
    rewrite Ha. destruct inRun; simpl; apply IH.
Qed.

Lemma TrimLeft_empty (s cutset : string) :
  strings.TrimLeft s cutset = "" <-> all_bytes (byte_in cutset) s = true.
Proof.
  induction s as [|c s IH]; simpl; [tauto|].
  destruct (byte_in cutset c); simpl; [exact IH|].
  split; discriminate.
Qed.

Lemma TrimRight_empty (s cutset : string) :
  strings.TrimRight s cutset = "" <-> all_bytes (byte_in cutset) s = true.
Proof.
  induction s as [|c s IH]; simpl; [tauto|].
  destruct (strings.TrimRight s cutset) as [|d t].
  - destruct IH as [IH _]. rewrite (IH eq_refl), andb_true_r.
    destruct (byte_in cutset c); split; congruence.
  - split; [discriminate|].
    intros H. apply andb_prop in H as [_ H].
    destruct IH as [_ IH]. specialize (IH H). discriminate.
Qed.

Lemma all_cutset_TrimLeft (s cutset : string) :
  all_bytes (byte_in cutset) (strings.TrimLeft s cutset)
  = all_bytes (byte_in cutset) s.
Proof.
  induction s as [|c s IH]; simpl; [reflexivity|].
  destruct (byte_in cutset c) eqn:Hc; simpl; [exact IH | now rewrite Hc].
Qed.

Lemma Trim_empty (s cutset : string) :
  strings.Trim s cutset = "" <-> all_bytes (byte_in cutset) s = true.
Proof.
  unfold strings.Trim. rewrite TrimRight_empty, all_cutset_TrimLeft. tauto.
Qed.

Lemma label_all_cutset (s : string) :
  all_bytes label_byte s = true ->
  (all_bytes (byte_in "-_.") s = true <-> some_byte is_alnum s = false).
Proof.
  induction s as [|c s IH]; cbn [all_bytes some_byte]; [tauto|].
  intros H. apply andb_prop in H as [Hc Hs]. specialize (IH Hs).
  unfold label_byte in Hc.
  destruct (is_alnum c) eqn:Ha.
  - rewrite (alnum_not_cutset _ Ha). cbn [andb orb]. split; discriminate.
  - cbn [orb] in Hc. rewrite Hc. cbn [andb orb]. exact IH.
Qed.

Lemma cut_to_63_empty (s : string) :
  (if Nat.ltb 63 (String.length s) then substring 0 63 s else s) = "" <-> s = "".
Proof.
  destruct s as [|c s]; [simpl; tauto|].
  destruct (Nat.ltb 63 _); simpl; split; discriminate.
Qed.

Lemma ToLower_empty (s : string) : strings.ToLower s = "" <-> s = "".
Proof. destruct s; simpl; split; congruence. Qed.

(** X3: the label is empty exactly when the input holds no ASCII letter and
    no digit; an input of dashes, dots, blanks or bytes beyond ASCII only
    gives the empty label, and one letter or digit is enough for a label
    that is not empty. *)
Theorem sanitizeLabel_empty_iff (input : string) :
  fst (sanitizeLabel input) = "" <-> some_byte is_alnum input = false.
Proof.
  unfold sanitizeLabel. cbn [fst].
  rewrite ToLower_empty, cut_to_63_empty, Trim_empty.
  rewrite label_all_cutset by (now apply all_bytes_ReplaceAllRuns).
  now rewrite some_alnum_ReplaceAllRuns.
Qed.

(** ** Label sanitizer: its fixed points *)

Lemma length_TrimLeft_le (s cutset : string) :
  String.length (strings.TrimLeft s cutset) <= String.length s.
Proof.
  induction s as [|c s IH]; simpl; [lia|].
  destruct (byte_in cutset c); simpl; lia.
Qed.

Lemma length_TrimRight_le (s cutset : string) :
  String.length (strings.TrimRight s cutset) <= String.length s.
Proof.
  induction s as [|c s IH]; simpl; [lia|].
  destruct (strings.TrimRight s cutset) as [|d t].
  - destruct (byte_in cutset c); simpl; lia.
  - simpl in *. lia.
Qed.

Lemma length_Trim_le (s cutset : string) :
  String.length (strings.Trim s cutset) <= String.length s.
Proof.
  unfold strings.Trim.
  pose proof (length_TrimRight_le (strings.TrimLeft s cutset) cutset).
  pose proof (length_TrimLeft_le s cutset). lia.
Qed.

(** X4: the strings the sanitizer returns unchanged are exactly the labels:
    at most 63 bytes, each a lower-case letter, a digit, a dash, an
    underscore or a dot, with neither a dash, an underscore nor a dot at
    either end. *)
Theorem sanitizeLabel_fixed_points (s : string) :
  sanitizeLabel s = (s, None) <->
  all_bytes lower_label_byte s = true /\
  String.length s <= 63 /\
  (forall c, first_byte s = Some c -> byte_in "-_." c = false) /\
  (forall c, last_byte s = Some c -> byte_in "-_." c = false).
Proof.
  split.
  - intros H. apply (f_equal fst) in H. cbn [fst] in H.
    assert (Hbytes : all_bytes lower_label_byte s = true)
      by (rewrite <- H; apply sanitizeLabel_bytes).
    assert (Hlen : String.length s <= 63)
      by (rewrite <- H; apply sanitizeLabel_length).
    repeat split; trivial.
    + intros c Hc. rewrite <- H in Hc. exact (sanitizeLabel_first_byte s c Hc).
    + intros c Hc. rewrite <- H in Hc.
      apply (sanitizeLabel_last_byte_uncut s c); [|exact Hc].
      rewrite ReplaceAllRuns_in_class
        by (eapply all_bytes_weaken; [exact lower_label_byte_label | exact Hbytes]).
      pose proof (length_Trim_le s "-_."). lia.
  - intros (Hbytes & Hlen & Hfirst & Hlast).
    now apply sanitizeLabel_fixed_point.
Qed.

(** ** The sanitizer on a zone of 64 bytes *)

(** C6: the label is too long by one byte after trimming, the cut at 63
    bytes then leaves the dash at the end.  The input holds alphanumeric
    bytes, and the label ends with a dash all the same. *)
Theorem sanitizeLabel_trailing_dash :
  some_byte is_alnum long_zone = true /\
  sanitizeLabel long_zone = (strings.Repeat "a" 62 ++ "-", None) /\
  last_byte (fst (sanitizeLabel long_zone)) = Some "-"%char.
Proof. repeat split. Qed.

(** C5: sanitizing the label of that zone again trims the dash the cut
    left behind, so the second pass does not return what the first did. *)
Theorem sanitizeLabel_second_pass_differs :
  sanitizeLabel long_zone = (strings.Repeat "a" 62 ++ "-", None) /\
  sanitizeLabel (fst (sanitizeLabel long_zone)) = (strings.Repeat "a" 62, None) /\
  sanitizeLabel (fst (sanitizeLabel long_zone)) <> sanitizeLabel long_zone.
Proof. repeat split. vm_compute. discriminate. Qed.

(** ** The codec on concrete identities *)

(** C3, as stated, fails: a region holding a slash does not come back, and
    neither does an empty instance identifier. *)
Lemma decode_encode_slash_or_empty :
  instanceIDFromProviderID "openstack"
    (makeInstanceID "openstack" (instances_of [] "a/b" true)
       {| ID := "c"; Name := "n"; Status := "ACTIVE"; AvailabilityZone := "nova" |})
    <> ("c", "a/b", None)
  /\
  instanceIDFromProviderID "openstack"
    (makeInstanceID "openstack" (instances_of [] "local" false)
       {| ID := ""; Name := "n"; Status := "ACTIVE"; AvailabilityZone := "nova" |})
    <> ("", "", None).
Proof. split; vm_compute; discriminate. Qed.

Lemma decode_encode_round_trip_witness :
  instanceIDFromProviderID "openstack"
    (makeInstanceID "openstack" (instances_of cloud "local" true) server_abc)
  = ("abc", "local", None).
Proof.
  apply (decode_encode_round_trip "openstack" (instances_of cloud "local" true)
           server_abc).
  - discriminate.
  - reflexivity.
  - reflexivity.
Defined.

(** Whatever the decoder, some region-qualified pair does not come back:
    region a with identifier b/c and region a/b with identifier c are
    written as the same identity. *)
Lemma no_decoder_inverts_makeInstanceID (ProviderName : string)
      (decode : string -> string * string) :
  ~ (forall i srv, regionProviderID i = true ->
                   decode (makeInstanceID ProviderName i srv) = (ID srv, region i)).
Proof.
  intros Hinv.
  pose (s1 := {| ID := "b/c"; Name := ""; Status := ""; AvailabilityZone := "" |}).
  pose (s2 := {| ID := "c"; Name := ""; Status := ""; AvailabilityZone := "" |}).
  pose proof (Hinv (instances_of [] "a" true) s1 eq_refl) as H1.
  pose proof (Hinv (instances_of [] "a/b" true) s2 eq_refl) as H2.
  rewrite (makeInstanceID_collision ProviderName (instances_of [] "a" true)
             (instances_of [] "a/b" true) s1 s2
             eq_refl eq_refl eq_refl eq_refl eq_refl eq_refl) in H1.
  rewrite H1 in H2. discriminate.
Qed.

(** ** The locator and the queries on a concrete remote *)

(** C1: the node name goes into the pattern as it is.  For the node node.1
    the pattern is ^node.1$, and a compute service that reads the name
    filter as a regular expression lets its dot stand for any byte.  On a
    remote that holds node-1 alone no instance is named like the node, yet
    the locator returns node-1 where InstanceNotFound is due; on a remote
    that holds node.1 and node-1 exactly one instance is named like the
    node, yet the locator returns the ambiguity error and not that
    instance. *)
Theorem getInstance_unquoted_name :
  named (node_Name node_dot) [server_abc] = [] /\
  run (getInstance "openstack"
         (instances_with (compute_regex [server_abc]) network_one "local" false)
         Background node_dot)
    = (Return (Some server_abc, None),
       [CallServersList TODO {| opt_Name := "^node.1$" |}]) /\
  named (node_Name node_dot) [server_dot; server_abc] = [server_dot] /\
  run (getInstance "openstack"
         (instances_with (compute_regex [server_dot; server_abc]) network_one
            "local" false)
         Background node_dot)
    = (Return (None, Some ErrMultipleInstances),
       [CallServersList TODO {| opt_Name := "^node.1$" |}]).
Proof. repeat split. Qed.

(** With a name that holds no dot the same remote lists by exact name. *)
Example getInstance_regex_remote_plain_name :
  run (getInstance "openstack"
         (instances_with (compute_regex cloud) network_one "local" false)
         Background node_1)
    = (Return (Some server_abc, None),
       [CallServersList TODO {| opt_Name := "^node-1$" |}]).
Proof. reflexivity. Qed.

Lemma getInstance_region_mismatch_witness :
  getInstance "openstack" (instances_of cloud "local" true) Background node_remote []
    = (Return (None, Some (ErrRegionMismatch "openstack://remote/xyz" "local")), []).
Proof.
  apply (getInstance_region_mismatch "openstack" (instances_of cloud "local" true)
           Background node_remote "xyz" "remote" []).
  - discriminate.
  - reflexivity.
  - discriminate.
  - discriminate.
Defined.

Lemma InstanceExists_follows_locator_witness :
  InstanceExists "openstack" (instances_of cloud "local" false) Background node_9 []
    = (Return (false, None), [CallServersList TODO {| opt_Name := "^node-9$" |}])
  /\
  InstanceExists "openstack" (instances_of cloud "local" false) Background node_2 []
    = (Return (false, Some ErrMultipleInstances),
       [CallServersList TODO {| opt_Name := "^node-2$" |}]).
Proof.
  split.
  - apply (proj1 (InstanceExists_follows_locator "openstack"
                    (instances_of cloud "local" false) Background node_9 [] _
                    None (Some InstanceNotFound) eq_refl)).
    reflexivity.
  - apply (proj2 (proj2 (InstanceExists_follows_locator "openstack"
                           (instances_of cloud "local" false) Background node_2 [] _
                           None (Some ErrMultipleInstances) eq_refl))).
    + reflexivity.
    + discriminate.
Defined.

Lemma InstanceShutdown_follows_status_witness :
  InstanceShutdown "openstack" "SHUTOFF" (instances_of cloud "local" true)
    Background node_local []
  = (Return (true, None), [CallServersGet TODO "xyz"]).
Proof.
  apply (proj1 (InstanceShutdown_follows_status "openstack" "SHUTOFF"
                  (instances_of cloud "local" true) Background node_local [] _
                  (Some server_xyz) None eq_refl) server_xyz eq_refl eq_refl).
  reflexivity.
Defined.

Lemma compute_of_record_or_error (all : list Server) (c : Context) (id : string) :
  compute_get (compute_of all) c id <> (None, None).
Proof.
  unfold compute_of; cbn [compute_get].
  destruct (canceled c); [discriminate|].
  destruct (find _ all); discriminate.
Qed.

Lemma getInstance_record_iff_no_error_witness :
  Some server_abc <> None <-> @None error = None.
Proof.
  apply (getInstance_record_iff_no_error "openstack"
           (instances_of cloud "local" false) Background node_1 []
           [CallServersList TODO {| opt_Name := "^node-1$" |}]
           (Some server_abc) None).
  - exact (compute_of_record_or_error cloud).
  - reflexivity.
Defined.

(** A get that answers neither a record nor an error is what the guard of
    InstanceMetadata is there for: the locator then returns neither, and the
    metadata is made from the zero value.  No such answer comes from a
    fetcher that returns a record or fails. *)
Lemma InstanceMetadata_guard_off_contract :
  let i := {| compute := compute_silent; network := network_of_none;
              region := "local"; regionProviderID := false;
              networkingOpts := {| opts_PublicNetworkName := [] |} |} in
  fst (run (getInstance "openstack" i Background node_local)) = Return (None, None) /\
  exists md,
    fst (run (InstanceMetadata "openstack" i Background node_local))
      = Return (Some md, None) /\
    cloudprovider.ProviderID md = "openstack:///".
Proof. split; [reflexivity|]. eexists. split; reflexivity. Qed.

(** C9: a caller whose context is canceled already.  The compute service of
    this remote refuses a list request under that context, yet
    InstanceExists sends its list request under context.TODO(), gets an
    answer and reports the instance: the caller's context never reaches the
    remote call. *)
Theorem InstanceExists_under_canceled_context :
  let ctx := WithCancel Background true in
  let i := instances_of cloud "local" false in
  canceled ctx = true /\
  snd (compute_list (compute i) ctx {| opt_Name := "^node-1$" |})
    = Some ErrContextCanceled /\
  run (InstanceExists "openstack" i ctx node_1)
    = (Return (true, None), [CallServersList TODO {| opt_Name := "^node-1$" |}]).
Proof. repeat split. Qed.

(** End-to-end scenarios of the specification. *)
Example scenario_A :
  run (InstanceExists "openstack" (instances_of cloud "local" false)
         Background node_1)
    = (Return (true, None), [CallServersList TODO {| opt_Name := "^node-1$" |}]) /\
  exists md log,
    run (InstanceMetadata "openstack" (instances_of cloud "local" false)
           Background node_1) = (Return (Some md, None), log) /\
    cloudprovider.Zone md = "az_1" /\
    cloudprovider.ProviderID md = "openstack:///abc".
Proof.
  split; [reflexivity|].
  eexists; eexists; split; [vm_compute; reflexivity | split; reflexivity].
Qed.

Example scenario_C :
  run (InstanceMetadata "openstack" (instances_of cloud "local" true)
         Background node_remote)
    = (Return (None, Some (ErrRegionMismatch "openstack://remote/xyz" "local")), []).
Proof. reflexivity. Qed.

(** ** Metadata and the sanitizer *)

(** X19: whatever the remote answers, the zone of a metadata record that
    InstanceMetadata returns is a sanitized label: at most 63 bytes, each a
    lower-case letter, a digit, a dash, an underscore or a dot, not starting
    with one of the last three; and its region is the configured one. *)
Theorem InstanceMetadata_zone_is_label (ProviderName : string)
        (i : InstancesV2) (ctx : Context) (node : Node) (log log1 : list Call)
        (md : cloudprovider.InstanceMetadata) (err : option error) :
  InstanceMetadata ProviderName i ctx node log = (Return (Some md, err), log1) ->
  String.length (cloudprovider.Zone md) <= 63 /\
  all_bytes lower_label_byte (cloudprovider.Zone md) = true /\
  (forall c, first_byte (cloudprovider.Zone md) = Some c ->
             byte_in "-_." c = false) /\
  cloudprovider.Region md = region i.
Proof.
  unfold InstanceMetadata, srvInstanceType, getAttachedPorts, nodeAddresses,
    bind, request, ret.
  intros H.
  repeat match type of H with
         | context [match ?x with _ => _ end] => destruct x eqn:?
         end; inversion H; subst; cbn [cloudprovider.Zone cloudprovider.Region].
  all: match goal with
       | Hz : sanitizeLabel ?az = (?z, _) |- _ =>
           assert (Hzone : z = fst (sanitizeLabel az)) by (now rewrite Hz)
       end.
  all: rewrite Hzone; repeat split.
  all: first [ apply sanitizeLabel_length
             | apply sanitizeLabel_bytes
             | apply sanitizeLabel_first_byte ].
Qed.

(** ** Construction *)

(** X20: the flag InstancesV2() returns is true exactly when the V1
    interface is not selected and both the compute and the network client
    could be created, and exactly then the interface returned holds an
    implementation.  The interface itself is nil only when V1 is selected:
    when a client cannot be created it holds a nil pointer, so it is the
    flag, not a comparison of the interface with nil, that tells whether
    there is an implementation. *)
Theorem OpenStack_InstancesV2_ok (rt : Runtime) (os : OpenStack) :
  (snd (OpenStack_InstancesV2 rt os) = true <->
     useV1Instances os = false /\
     (exists c, NewComputeV2 rt (provider os) (epOpts os) = inl c) /\
     (exists n, NewNetworkV2 rt (provider os) (epOpts os) = inl n)) /\
  ((exists i, fst (OpenStack_InstancesV2 rt os) = HoldsPointer (Some i)) <->
     snd (OpenStack_InstancesV2 rt os) = true) /\
  (fst (OpenStack_InstancesV2 rt os) = NilInterface <->
     useV1Instances os = true).
Proof.
  unfold OpenStack_InstancesV2, instancesv2.
  destruct (useV1Instances os); cbn [negb].
  { cbn [fst snd]. repeat split; try congruence.
    - intros (H & _); discriminate.
    - intros (i & Hi); discriminate. }
  destruct (NewComputeV2 rt _ _) as [c|e].
  - destruct (NewNetworkV2 rt _ _) as [n|e]; cbn [fst snd].
    + repeat split; try congruence; eauto.
    + repeat split; try congruence.
      * intros (_ & _ & n & Hn); discriminate.
      * intros (i & Hi); discriminate.
  - cbn [fst snd]. repeat split; try congruence.
    + intros (_ & (c & Hc) & _); discriminate.
    + intros (i & Hi); discriminate.
Qed.

(** X21: the implementation that InstancesV2() hands out holds the two
    clients that were created, the region of the endpoint options and the
    networking options of the provider, and it is region-qualified exactly
    when the environment variable is the string true, in lower case. *)
Theorem OpenStack_InstancesV2_fields (rt : Runtime) (os : OpenStack)
        (i : InstancesV2) (ok : bool) :
  OpenStack_InstancesV2 rt os = (HoldsPointer (Some i), ok) ->
  NewComputeV2 rt (provider os) (epOpts os) = inl (compute i) /\
  NewNetworkV2 rt (provider os) (epOpts os) = inl (network i) /\
  region i = eo_Region (epOpts os) /\
  networkingOpts i = os_networkingOpts os /\
  (regionProviderID i = true <-> Getenv rt (RegionalProviderIDEnv rt) = "true").
Proof.
  unfold OpenStack_InstancesV2, instancesv2.
  destruct (useV1Instances os); cbn [negb]; [discriminate|].
  destruct (NewComputeV2 rt _ _) as [c|e]; [|discriminate].
  destruct (NewNetworkV2 rt _ _) as [n|e]; [|discriminate].
  intros H. injection H as <- _. cbn.
  repeat split; try reflexivity.
  - destruct (String.eqb_spec (Getenv rt (RegionalProviderIDEnv rt)) "true");
      [trivial | discriminate].
  - intros ->. reflexivity.
Qed.

(** X22: the identities written by an implementation that InstancesV2()
    hands out are region-qualified, with the region of the endpoint
    options, when the environment variable is exactly true, and carry no
    region for any other value, the unset variable included. *)
Theorem OpenStack_InstancesV2_identity_mode (rt : Runtime) (os : OpenStack)
        (i : InstancesV2) (ok : bool) (ProviderName : string) (srv : Server) :
  OpenStack_InstancesV2 rt os = (HoldsPointer (Some i), ok) ->
  makeInstanceID ProviderName i srv =
    if String.eqb (Getenv rt (RegionalProviderIDEnv rt)) "true"
    then ProviderName ++ "://" ++ eo_Region (epOpts os) ++ "/" ++ ID srv
    else ProviderName ++ ":///" ++ ID srv.
Proof.
  unfold OpenStack_InstancesV2, instancesv2.
  destruct (useV1Instances os); cbn [negb]; [discriminate|].
  destruct (NewComputeV2 rt _ _) as [c|e]; [|discriminate].
  destruct (NewNetworkV2 rt _ _) as [n|e]; [|discriminate].
  intros H. injection H as <- _. unfold makeInstanceID. cbn [regionProviderID region].
  destruct (String.eqb _ "true").
  - apply Sprintf_qualified.
  - apply Sprintf_unqualified.
Qed.

(** ** The further properties on concrete inputs *)

Lemma sanitizeLabel_uncut_ends_alnum_witness :
  is_lower "1" || is_digit "1" = true.
Proof.
  apply (sanitizeLabel_uncut_ends_alnum "AZ_1!!" "1").
  - vm_compute. lia.
  - reflexivity.
Defined.

Lemma sanitizeLabel_idempotent_clean_end_witness :
  sanitizeLabel (fst (sanitizeLabel "AZ_1!!")) = sanitizeLabel "AZ_1!!".
Proof.
  apply (sanitizeLabel_idempotent_clean_end "AZ_1!!").
  intros c H. vm_compute in H. injection H as <-. reflexivity.
Defined.

Lemma makeInstanceID_slash_shift_witness :
  makeInstanceID "openstack" (instances_of [] "a" true)
    {| ID := "b/c"; Name := "n"; Status := "ACTIVE"; AvailabilityZone := "nova" |}
  = makeInstanceID "openstack" (instances_of [] "a/b" true)
      {| ID := "c"; Name := "n"; Status := "ACTIVE"; AvailabilityZone := "nova" |}.
Proof.
  apply (makeInstanceID_slash_shift "openstack" (instances_of [] "a" true)
           (instances_of [] "a/b" true) _ _ "b"); reflexivity.
Defined.

Lemma makeInstanceID_unqualified_injective_witness :
  ID server_abc = ID server_abc_stopped.
Proof.
  apply (makeInstanceID_unqualified_injective "openstack"
           (instances_of cloud "local" false) (instances_of cloud "other" false)
           server_abc server_abc_stopped); reflexivity.
Defined.

Lemma makeInstanceID_qualified_injective_witness :
  region (instances_of cloud "local" true) = region (instances_of [] "local" true) /\
  ID server_abc = ID server_abc_stopped.
Proof.
  apply (makeInstanceID_qualified_injective "openstack"
           (instances_of cloud "local" true) (instances_of [] "local" true)
           server_abc server_abc_stopped); reflexivity.
Defined.

Lemma getInstance_list_failure_witness :
  InstanceExists "openstack" (instances_with compute_down network_one "local" false)
    Background node_1 []
  = (Return (false,
             Some (ErrListingServers {| opt_Name := "^node-1$" |}
                     (Some (ErrRemote 503 "unavailable")))),
     [CallServersList TODO {| opt_Name := "^node-1$" |}]).
Proof.
  apply (getInstance_list_failure "openstack"
           (instances_with compute_down network_one "local" false)
           Background node_1 {| page_servers := []; page_err := None |}
           (ErrRemote 503 "unavailable") []); reflexivity.
Defined.

Lemma getInstance_malformed_identity_witness :
  getInstance "openstack" (instances_of cloud "local" false) Background
    node_garbage []
  = (Return (None, Some (ErrProviderIDFormat "aws:///i-0abc")), []).
Proof.
  apply (getInstance_malformed_identity "openstack"
           (instances_of cloud "local" false) Background node_garbage "" ""
           (ErrProviderIDFormat "aws:///i-0abc") []).
  - discriminate.
  - reflexivity.
Defined.

Lemma getInstance_by_id_witness :
  getInstance "openstack" (instances_of cloud "local" true) Background
    node_local []
  = (Return (Some server_xyz, None), [CallServersGet TODO "xyz"])
  /\
  getInstance "openstack" (instances_with compute_down network_one "local" true)
    Background node_local []
  = (Return (None, Some (ErrRemote 503 "unavailable")), [CallServersGet TODO "xyz"]).
Proof.
  split.
  - apply (getInstance_by_id "openstack" (instances_of cloud "local" true)
             Background node_local "xyz" "local" [] (Some server_xyz) None).
    + discriminate.
    + reflexivity.
    + now right.
    + reflexivity.
    + reflexivity.
  - apply (getInstance_by_id "openstack"
             (instances_with compute_down network_one "local" true)
             Background node_local "xyz" "local" [] None
             (Some (ErrRemote 503 "unavailable"))).
    + discriminate.
    + reflexivity.
    + now right.
    + reflexivity.
    + reflexivity.
Defined.

Lemma InstanceExists_get_not_found_witness :
  getInstance "openstack" (instances_of cloud "local" false) Background
    node_gone []
  = (Return (None, Some InstanceNotFound), [CallServersGet TODO "gone"])
  /\
  InstanceExists "openstack" (instances_of cloud "local" false) Background
    node_gone []
  = (Return (false, None), [CallServersGet TODO "gone"]).
Proof.
  apply (InstanceExists_get_not_found "openstack"
           (instances_of cloud "local" false) Background node_gone "gone" ""
           None (ErrResourceNotFound "gone") []).
  - discriminate.
  - reflexivity.
  - now left.
  - reflexivity.
  - reflexivity.
Defined.

Lemma InstanceMetadata_locator_error_witness :
  InstanceMetadata "openstack" (instances_of cloud "local" false) Background
    node_2 []
  = (Return (None, Some ErrMultipleInstances),
     [CallServersList TODO {| opt_Name := "^node-2$" |}]).
Proof.
  apply (InstanceMetadata_locator_error "openstack"
           (instances_of cloud "local" false) Background node_2 [] _ None
           ErrMultipleInstances).
  reflexivity.
Defined.

Lemma InstanceMetadata_first_failure_witness :
  InstanceMetadata "openstack"
    (instances_with (compute_no_flavor cloud) network_one "local" false)
    Background node_1 []
  = (Return (None, Some (ErrRemote 500 "flavor")),
     [CallServersList TODO {| opt_Name := "^node-1$" |}; CallInstanceType "abc"])
  /\
  InstanceMetadata "openstack"
    (instances_with (compute_of cloud) network_no_ports "local" false)
    Background node_1 []
  = (Return (None, Some (ErrRemote 500 "ports")),
     [CallServersList TODO {| opt_Name := "^node-1$" |}; CallInstanceType "abc";
      CallAttachedPorts "abc"])
  /\
  InstanceMetadata "openstack"
    (instances_with (compute_of cloud) network_no_addresses "local" false)
    Background node_1 []
  = (Return (None, Some (ErrRemote 500 "addresses")),
     [CallServersList TODO {| opt_Name := "^node-1$" |}; CallInstanceType "abc";
      CallAttachedPorts "abc"; CallNodeAddresses "abc"]).
Proof.
  split; [|split].
  - apply (proj1 (InstanceMetadata_first_failure "openstack"
                    (instances_with (compute_no_flavor cloud) network_one "local" false)
                    Background node_1 [] _ server_abc eq_refl) "").
    reflexivity.
  - apply (proj1 (proj2 (InstanceMetadata_first_failure "openstack"
                           (instances_with (compute_of cloud) network_no_ports
                              "local" false)
                           Background node_1 [] _ server_abc eq_refl))
             "m1.small" []); reflexivity.
  - apply (proj2 (proj2 (InstanceMetadata_first_failure "openstack"
                           (instances_with (compute_of cloud) network_no_addresses
                              "local" false)
                           Background node_1 [] _ server_abc eq_refl))
             "m1.small" [{| port_ID := "p1" |}] []); reflexivity.
Defined.

Lemma InstanceMetadata_success_witness :
  InstanceMetadata "openstack"
    (instances_with (compute_of cloud) network_one "local" false)
    Background node_1 []
  = (Return (Some {| cloudprovider.ProviderID := "openstack:///abc";
                     cloudprovider.InstanceType := "m1.small";
                     cloudprovider.NodeAddresses :=
                       [{| addr_Type := "InternalIP"; addr_Address := "10.0.0.5" |}];
                     cloudprovider.Zone := "az_1";
                     cloudprovider.Region := "local" |}, None),
     [CallServersList TODO {| opt_Name := "^node-1$" |}; CallInstanceType "abc";
      CallAttachedPorts "abc"; CallNodeAddresses "abc"]).
Proof.
  apply (InstanceMetadata_success "openstack"
           (instances_with (compute_of cloud) network_one "local" false)
           Background node_1 []
           [CallServersList TODO {| opt_Name := "^node-1$" |}]
           server_abc "m1.small" [{| port_ID := "p1" |}]
           [{| addr_Type := "InternalIP"; addr_Address := "10.0.0.5" |}]);
    reflexivity.
Defined.

Lemma InstanceMetadata_zone_is_label_witness :
  String.length "az_1" <= 63 /\
  all_bytes lower_label_byte "az_1" = true /\
  (forall c, first_byte "az_1" = Some c -> byte_in "-_." c = false) /\
  "local" = "local".
Proof.
  apply (InstanceMetadata_zone_is_label "openstack"
           (instances_with (compute_of cloud) network_one "local" false)
           Background node_1 []
           [CallServersList TODO {| opt_Name := "^node-1$" |}; CallInstanceType "abc";
            CallAttachedPorts "abc"; CallNodeAddresses "abc"]
           {| cloudprovider.ProviderID := "openstack:///abc";
              cloudprovider.InstanceType := "m1.small";
              cloudprovider.NodeAddresses :=
                [{| addr_Type := "InternalIP"; addr_Address := "10.0.0.5" |}];
              cloudprovider.Zone := "az_1";
              cloudprovider.Region := "local" |} None).
  reflexivity.
Defined.

Lemma OpenStack_InstancesV2_fields_witness :
  regionProviderID (instances_with (compute_of cloud) network_one "local" true) = true
  <-> Getenv (runtime_of cloud [("OS_CCM_REGIONAL", "true")]) "OS_CCM_REGIONAL" = "true".
Proof.
  apply (OpenStack_InstancesV2_fields
           (runtime_of cloud [("OS_CCM_REGIONAL", "true")]) openstack_local
           (instances_with (compute_of cloud) network_one "local" true) true).
  reflexivity.
Defined.

Lemma OpenStack_InstancesV2_identity_mode_witness :
  makeInstanceID "openstack"
    (instances_with (compute_of cloud) network_one "local" false) server_abc
  = "openstack:///abc".
Proof.
  apply (OpenStack_InstancesV2_identity_mode
           (runtime_of cloud [("OS_CCM_REGIONAL", "True")]) openstack_local
           (instances_with (compute_of cloud) network_one "local" false) true
           "openstack" server_abc).
  reflexivity.
Defined.

Lemma resolutions_region_mismatch_witness :
  InstanceExists "openstack" (instances_of cloud "local" true) Background
    node_remote []
  = (Return (false, Some (ErrRegionMismatch "openstack://remote/xyz" "local")), []).
Proof.
  apply (resolutions_region_mismatch "openstack" "SHUTOFF"
           (instances_of cloud "local" true) Background node_remote
           "xyz" "remote" []).
  - discriminate.
  - reflexivity.
  - discriminate.
  - discriminate.
Defined.

Lemma queries_ambiguous_witness :
  InstanceExists "openstack" (instances_of cloud "local" false) Background
    node_2 []
  = (Return (false, Some ErrMultipleInstances),
     [CallServersList TODO {| opt_Name := "^node-2$" |}])
  /\
  InstanceShutdown "openstack" "SHUTOFF" (instances_of cloud "local" false)
    Background node_2 []
  = (Return (false, Some ErrMultipleInstances),
     [CallServersList TODO {| opt_Name := "^node-2$" |}]).
Proof.
  apply (queries_ambiguous "openstack" "SHUTOFF"
           (instances_of cloud "local" false) Background node_2
           {| page_servers := [server_twin1; server_twin2]; page_err := None |} []).
  - reflexivity.
  - reflexivity.
  - reflexivity.
  - simpl. lia.
Defined.

Lemma getInstance_single_listed_witness :
  getInstance "openstack"
    (instances_with (compute_only server_xyz) network_one "local" false)
    Background node_1 []
  = (Return (Some server_xyz, None),
     [CallServersList TODO {| opt_Name := "^node-1$" |}]).
Proof.
  apply (getInstance_single_listed "openstack"
           (instances_with (compute_only server_xyz) network_one "local" false)
           Background node_1
           {| page_servers := [server_xyz]; page_err := None |} server_xyz []);
    reflexivity.
Defined.

(** With the compute service out of reach the interface returned is not the
    nil interface: it holds a nil pointer, beside the flag false. *)
Example OpenStack_InstancesV2_typed_nil :
  OpenStack_InstancesV2 runtime_no_compute openstack_local
    = (HoldsPointer None, false).
Proof. reflexivity. Qed.
